(** * Knowledge-graph constructor: graph assembly and serialization

    A shallow embedding of [knowledge_graph_constructor.py],
    [schemaorg_entity_extractor.py] and [schemaorg_memory_entry.py],
    followed by the properties of the graph assembly and of the two
    exporters.

    Python values are modelled as they are at run time:
    - a [str] is a sequence of Unicode code points ([pystr]);
    - a value decoded by [json.loads] is a [pyval];
    - a [dict] is an association list in insertion order ([dict_set]
      replaces in place or appends, as Python does);
    - an exception aborts the running method and leaves the object in the
      state reached so far ([M], a state monad with errors). *)

From Stdlib Require Import List NArith ZArith Bool Lia String Ascii.
From Stdlib Require Import Floats.SpecFloat.
From ExtLib Require Import Structures.Monad.
Import ListNotations.
Import MonadNotation.

Set Implicit Arguments.
Set Warnings "-register-all".
Local Open Scope N_scope.
Local Open Scope monad_scope.

(** ** Python strings *)

Definition pystr := list N.

(** A literal: the code points of an ASCII string. *)
Definition lit (s : string) : pystr :=
  List.map N_of_ascii (list_ascii_of_string s).

Definition DQUOTE : N := 34.
Definition LF : N := 10.

(** A literal in which every apostrophe stands for a double quote, for
    writing JSON documents. *)
Definition jlit (s : string) : pystr :=
  List.map (fun c => if c =? 39 then DQUOTE else c) (lit s).

Fixpoint str_eqb (a b : pystr) : bool :=
  match a, b with
  | [], [] => true
  | x :: a', y :: b' => (x =? y) && str_eqb a' b'
  | _, _ => false
  end.

Definition is_empty (s : pystr) : bool :=
  match s with [] => true | _ => false end.

Definition in_range (lo hi c : N) : bool := (lo <=? c) && (c <=? hi).

(** [str.isspace] on one code point; also the class [\s] of [re] on
    [str] patterns. *)
Definition py_isspace (c : N) : bool :=
  in_range 9 13 c || in_range 28 32 c || (c =? 133) || (c =? 160)
  || (c =? 5760) || in_range 8192 8202 c || (c =? 8232) || (c =? 8233)
  || (c =? 8239) || (c =? 8287) || (c =? 12288).

(** The class [[a-zA-Z0-9\-_.]]. *)
Definition id_char (c : N) : bool :=
  in_range 97 122 c || in_range 65 90 c || in_range 48 57 c
  || (c =? 45) || (c =? 95) || (c =? 46).

(** [re.sub(r'\s+', '', text)]: every maximal run of whitespace is
    replaced by nothing, so every whitespace character goes. *)
Definition sub_spaces (text : pystr) : pystr :=
  List.filter (fun c => negb (py_isspace c)) text.

(** [re.sub(r'[^a-zA-Z0-9\-_.]', '', clean)]. *)
Definition sub_non_id (clean : pystr) : pystr :=
  List.filter id_char clean.

(** [str.lower] on one code point. The source lower-cases only text that
    has been through [sub_non_id], which is ASCII; on ASCII, [lower]
    shifts [A-Z] and fixes every other character. *)
Definition lower_char (c : N) : N :=
  if in_range 65 90 c then c + 32 else c.

Definition py_lower (s : pystr) : pystr := List.map lower_char s.

(** ** Identifier builder *)

Definition URI_PREFIX : pystr := lit "urn:kg".

(** [KnowledgeGraphConstructor._build_uri] *)
Definition _build_uri (entity_id : pystr) : pystr :=
  let clean_id := sub_spaces entity_id in
  let clean_id := sub_non_id clean_id in
  URI_PREFIX ++ lit ":" ++ clean_id.

(** [KnowledgeGraphConstructor._sanitize_id] *)
Definition _sanitize_id (text : pystr) : pystr :=
  let clean := sub_spaces text in
  let clean := sub_non_id clean in
  py_lower clean.

(** The specification's wording of [canonicalize]: drop whitespace, drop
    what is outside the identifier class, lower-case. *)
Definition canonicalize_spec (text : pystr) : pystr :=
  List.map lower_char
    (List.filter id_char (List.filter (fun c => negb (py_isspace c)) text)).

(** ** More of [str] *)

Fixpoint starts_with (p s : pystr) : bool :=
  match p, s with
  | [], _ => true
  | x :: p', y :: s' => (x =? y) && starts_with p' s'
  | _ :: _, [] => false
  end.

(** [sub in s] *)
Fixpoint contains (sub s : pystr) : bool :=
  match s with
  | [] => is_empty sub
  | _ :: s' => starts_with sub s || contains sub s'
  end.

Definition push_front (c : N) (parts : list pystr) : list pystr :=
  match parts with
  | [] => [[c]]
  | p :: ps => (c :: p) :: ps
  end.

(** [s.split(sep)] for a non-empty [sep], scanning from the left; [skip]
    counts the characters of a separator just matched that are still to
    be passed over. *)
Fixpoint split_from (sep : pystr) (skip : nat) (s : pystr) : list pystr :=
  match s with
  | [] => [[]]
  | c :: s' =>
      match skip with
      | S k => split_from sep k s'
      | O =>
          if starts_with sep s
          then [] :: split_from sep (pred (List.length sep)) s'
          else push_front c (split_from sep 0 s')
      end
  end.

Definition py_split (s sep : pystr) : list pystr := split_from sep 0 s.

Fixpoint lstrip (s : pystr) : pystr :=
  match s with
  | c :: s' => if py_isspace c then lstrip s' else s
  | [] => []
  end.

(** [s.strip()] *)
Definition py_strip (s : pystr) : pystr :=
  List.rev (lstrip (List.rev (lstrip s))).

(** [sep.join(parts)] *)
Fixpoint py_join (sep : pystr) (parts : list pystr) : pystr :=
  match parts with
  | [] => []
  | [p] => p
  | p :: ps => p ++ sep ++ py_join sep ps
  end.

(** ** Dictionaries

    A [dict] keeps its keys in insertion order; assigning to a key that
    is present replaces its value where it stands. *)

Definition dict (V : Type) := list (pystr * V).

Fixpoint dict_get {V} (k : pystr) (d : dict V) : option V :=
  match d with
  | [] => None
  | (k', v) :: d' => if str_eqb k' k then Some v else dict_get k d'
  end.

Definition dict_mem {V} (k : pystr) (d : dict V) : bool :=
  match dict_get k d with Some _ => true | None => false end.

(** [d[k] = v] *)
Fixpoint dict_set {V} (k : pystr) (v : V) (d : dict V) : dict V :=
  match d with
  | [] => [(k, v)]
  | (k', v') :: d' =>
      if str_eqb k' k then (k', v) :: d' else (k', v') :: dict_set k v d'
  end.

Definition dict_keys {V} (d : dict V) : list pystr := List.map fst d.
Definition dict_values {V} (d : dict V) : list V := List.map snd d.

(** [{**d, **extra}] onto an existing literal [d]. *)
Definition dict_update {V} (d extra : dict V) : dict V :=
  List.fold_left (fun acc kv => dict_set (fst kv) (snd kv) acc) extra d.

(** ** Values decoded from JSON, exceptions *)

Inductive pyval : Type :=
| PNone
| PBool (b : bool)
| PInt (z : Z)
| PFloat (x : spec_float)
| PStr (s : pystr)
| PList (l : list pyval)
| PDict (d : list (pystr * pyval)).

Inductive exn : Type :=
| JSONDecodeError
| AttributeError
| KeyError
| TypeError
| IndexError
| ValidationError
| OtherError (name : pystr).

Inductive result (A : Type) : Type :=
| Ok (a : A)
| Raise (e : exn).

Arguments Ok {A} a.
Arguments Raise {A} e.

#[export] Instance Monad_result : Monad result :=
  {| ret := fun _ a => Ok a;
     bind := fun _ _ c k =>
       match c with Ok a => k a | Raise e => Raise e end |}.

(** [try: body except json.JSONDecodeError: handler] *)
Definition except_JSONDecodeError {A} (body : result A) (handler : result A)
  : result A :=
  match body with
  | Raise JSONDecodeError => handler
  | other => other
  end.

(** [v[k]] with a string key. *)
Definition py_getitem (v : pyval) (k : pystr) : result pyval :=
  match v with
  | PDict d =>
      match dict_get k d with Some x => Ok x | None => Raise KeyError end
  | _ => Raise TypeError
  end.

(** [v.get(k, default)] *)
Definition py_get (v : pyval) (k : pystr) (default : pyval) : result pyval :=
  match v with
  | PDict d => match dict_get k d with Some x => Ok x | None => Ok default end
  | _ => Raise AttributeError
  end.

(** The items a [for] loop visits. *)
Definition py_iter (v : pyval) : result (list pyval) :=
  match v with
  | PList l => Ok l
  | PDict d => Ok (List.map PStr (dict_keys d))
  | PStr s => Ok (List.map (fun c => PStr [c]) s)
  | _ => Raise TypeError
  end.

(** [parts[i]] *)
Definition py_index {A} (parts : list A) (i : nat) : result A :=
  match List.nth_error parts i with
  | Some x => Ok x
  | None => Raise IndexError
  end.

(** The [str] argument [re.sub] insists on. *)
Definition re_subject (v : pyval) : result pystr :=
  match v with
  | PStr s => Ok s
  | _ => Raise TypeError
  end.

(** [node["@id"] == uri] where [uri] is a [str]. *)
Definition py_eq_str (v : pyval) (s : pystr) : bool :=
  match v with
  | PStr s' => str_eqb s' s
  | _ => false
  end.

(** ** The libraries the program runs on

    [json.loads], pydantic's validation of fields annotated [str] and
    [Dict[str, Any]], and [str()] as applied by f-strings are library
    code; the program is modelled over any implementation of them. *)

Class PyRuntime : Type := {
  json_loads : pystr -> result pyval;
  validate_str : pyval -> option pystr;
  validate_dict : pyval -> option (dict pyval);
  py_str : pyval -> pystr
}.

(** ** Data model ([schemaorg_memory_entry.py]) *)

Record SchemaOrgEntity : Type := {
  entity_id : pystr;
  name : pystr;
  schema_type : pystr;
  schema_uri : pystr;
  properties : dict pyval
}.

Record SchemaOrgRelation : Type := {
  subject_id : pystr;
  predicate : pystr;
  predicate_uri : pystr;
  object_id : pystr
}.

(** [KnowledgeGraphConstructor]: the three attributes that hold the
    graph. The client, the loader and the extractor are set once by
    [__init__] and hold no part of it. *)
Record KnowledgeGraphConstructor : Type := {
  entities : dict SchemaOrgEntity;
  relations : list SchemaOrgRelation;
  texts : list pystr
}.

Definition empty_KG : KnowledgeGraphConstructor :=
  {| entities := []; relations := []; texts := [] |}.

(** ** Methods: state and exceptions

    A method runs on the object and either returns or raises; what it
    has written before raising stays written. *)

Definition M (A : Type) : Type :=
  KnowledgeGraphConstructor -> KnowledgeGraphConstructor * result A.

#[export] Instance Monad_M : Monad M :=
  {| ret := fun _ a kg => (kg, Ok a);
     bind := fun _ _ c k kg =>
       match c kg with
       | (kg', Ok a) => k a kg'
       | (kg', Raise e) => (kg', Raise e)
       end |}.

Definition lift {A} (r : result A) : M A := fun kg => (kg, r).
Definition get_self : M KnowledgeGraphConstructor := fun kg => (kg, Ok kg).
Definition put_self (kg' : KnowledgeGraphConstructor) : M unit :=
  fun _ => (kg', Ok tt).

(** [for x in xs: body(x)] *)
Fixpoint for_each {A} (xs : list A) (body : A -> M unit) : M unit :=
  match xs with
  | [] => ret tt
  | x :: xs' => body x ;; for_each xs' body
  end.

(** The same loop with the position of each item, as [enumerate] gives. *)
Fixpoint for_each_from {A} (i : nat) (xs : list A) (body : nat -> A -> M unit)
  : M unit :=
  match xs with
  | [] => ret tt
  | x :: xs' => body i x ;; for_each_from (S i) xs' body
  end.

(** Truth value of an [Optional[str]]. *)
Definition truthy (v : option pystr) : bool :=
  match v with
  | Some s => negb (is_empty s)
  | None => false
  end.

Section Program.

Context {RT : PyRuntime}.

(** *** [schemaorg_entity_extractor.py] *)

Definition FENCE_JSON : pystr := lit "```json".
Definition FENCE : pystr := lit "```".

(** The first half of [_parse_response]: the text handed to
    [json.loads], before [strip]. *)
Definition unfence (response : pystr) : result pystr :=
  if contains FENCE_JSON response then
    inner <- py_index (py_split response FENCE_JSON) 1 ;;
    py_index (py_split inner FENCE) 0
  else if contains FENCE response then
    inner <- py_index (py_split response FENCE) 1 ;;
    py_index (py_split inner FENCE) 0
  else ret response.

(** [SchemaOrgEntityExtractor._parse_response]. The warning printed by
    the handler goes to standard output and is not part of the result. *)
Definition _parse_response (response : pystr) : result (pyval * pyval) :=
  except_JSONDecodeError
    (response' <- unfence response ;;
     data <- json_loads (py_strip response') ;;
     es <- py_get data (lit "entities") (PList []) ;;
     rs <- py_get data (lit "relations") (PList []) ;;
     ret (es, rs))
    (ret (PList [], PList [])).

(** [SchemaOrgEntityExtractor.extract_entities_and_relations]: the
    prompt is sent to the Oracle, whose [reply] (a response, or the
    exception of a failed call) is an input of the model. *)
Definition extract_entities_and_relations (reply : result pystr)
  : result (pyval * pyval) :=
  response <- reply ;;
  _parse_response response.

(** *** Constructors of the pydantic models

    The identifier is the [uuid4] drawn by the default factory; [name],
    [schema_type] and [properties] are validated, [schema_uri] is a
    [str] built by the caller. *)
Definition new_SchemaOrgEntity (uuid : pystr) (name_ type_ : pyval)
    (uri : pystr) (props : pyval) : result SchemaOrgEntity :=
  match validate_str name_, validate_str type_, validate_dict props with
  | Some n, Some t, Some p =>
      Ok {| entity_id := uuid; name := n; schema_type := t;
            schema_uri := uri; properties := p |}
  | _, _, _ => Raise ValidationError
  end.

(** [subject_id], [predicate_uri] and [object_id] are [str] built by the
    caller; [predicate] is validated. *)
Definition new_SchemaOrgRelation (subj : pystr) (pred : pyval)
    (pred_uri obj : pystr) : result SchemaOrgRelation :=
  match validate_str pred with
  | Some p =>
      Ok {| subject_id := subj; predicate := p;
            predicate_uri := pred_uri; object_id := obj |}
  | None => Raise ValidationError
  end.

(** *** [knowledge_graph_constructor.py] *)

Definition SCHEMA_ORG : pystr := lit "https://schema.org/".

(** The loop of [_find_entity_key] over [self.entities.items()]. *)
Fixpoint find_key_loop (sanitized_name : pystr)
    (items : dict SchemaOrgEntity) : option pystr :=
  match items with
  | [] => None
  | (key, entity) :: rest =>
      if str_eqb (_sanitize_id (name entity)) sanitized_name
      then Some key
      else find_key_loop sanitized_name rest
  end.

(** [KnowledgeGraphConstructor._find_entity_key] *)
Definition _find_entity_key
    (self : KnowledgeGraphConstructor) (name_ : pystr) : option pystr :=
  let sanitized_name := _sanitize_id name_ in
  find_key_loop sanitized_name (entities self).

(** [self.entities[key]] *)
Definition entities_getitem (self : KnowledgeGraphConstructor) (key : pystr)
  : result SchemaOrgEntity :=
  match dict_get key (entities self) with
  | Some e => Ok e
  | None => Raise KeyError
  end.

Definition entity_key_of (entity : SchemaOrgEntity) : pystr :=
  schema_type entity ++ lit ":" ++ _sanitize_id (name entity).

(** First statement of the first loop of [add_text] (lines 104-109):
    the arguments are evaluated in order, then the model validates. *)
Definition entity_of (uuid : pystr) (entity_data : pyval)
  : result SchemaOrgEntity :=
  n <- py_getitem entity_data (lit "name") ;;
  t <- py_getitem entity_data (lit "type") ;;
  let uri := SCHEMA_ORG ++ py_str t in
  p <- py_get entity_data (lit "properties") (PDict []) ;;
  new_SchemaOrgEntity uuid n t uri p.

(** Rest of the body of the first loop (lines 110-112). *)
Definition store_entity (entity : SchemaOrgEntity) : M unit :=
  let entity_key := entity_key_of entity in
  self <- get_self ;;
  if negb (dict_mem entity_key (entities self)) then
    put_self {| entities := dict_set entity_key entity (entities self);
                relations := relations self;
                texts := texts self |}
  else ret tt.

(** Body of the first loop of [add_text] (lines 103-112). *)
Definition add_entity (uuid : pystr) (entity_data : pyval) : M unit :=
  entity <- lift (entity_of uuid entity_data) ;;
  store_entity entity.

(** [self._find_entity_key(rel_data[field])]; [_sanitize_id] hands its
    argument to [re.sub]. *)
Definition resolve (rel_data : pyval) (field : pystr) : M (option pystr) :=
  v <- lift (py_getitem rel_data field) ;;
  name_ <- lift (re_subject v) ;;
  self <- get_self ;;
  ret (_find_entity_key self name_).

(** Body of the second loop of [add_text] (lines 115-126). *)
Definition add_relation (rel_data : pyval) : M unit :=
  subject_key <- resolve rel_data (lit "subject") ;;
  object_key <- resolve rel_data (lit "object") ;;
  match subject_key, object_key with
  | Some sk, Some ok =>
      if truthy subject_key && truthy object_key then
        self <- get_self ;;
        subj <- lift (entities_getitem self sk) ;;
        pred <- lift (py_getitem rel_data (lit "predicate")) ;;
        let pred_uri := SCHEMA_ORG ++ py_str pred in
        obj <- lift (entities_getitem self ok) ;;
        relation <- lift (new_SchemaOrgRelation (entity_id subj) pred
                            pred_uri (entity_id obj)) ;;
        put_self {| entities := entities self;
                    relations := relations self ++ [relation];
                    texts := texts self |}
      else ret tt
  | _, _ => ret tt
  end.

(** [KnowledgeGraphConstructor.add_text]. [reply] is what the Oracle
    answers to this call, [uuid4 i] the identifier drawn for the [i]-th
    extracted entity. *)
Definition add_text (text : pystr) (reply : result pystr)
    (uuid4 : nat -> pystr) : M unit :=
  self <- get_self ;;
  put_self {| entities := entities self;
              relations := relations self;
              texts := texts self ++ [text] |} ;;
  extracted <- lift (extract_entities_and_relations reply) ;;
  entity_items <- lift (py_iter (fst extracted)) ;;
  for_each_from 0 entity_items (fun i entity_data =>
    add_entity (uuid4 i) entity_data) ;;
  relation_items <- lift (py_iter (snd extracted)) ;;
  for_each relation_items add_relation.

(** [next((e for e in self.entities.values() if e.entity_id == id), None)] *)
Definition entity_with_id
    (self : KnowledgeGraphConstructor) (id : pystr) : option SchemaOrgEntity :=
  List.find (fun e => str_eqb (entity_id e) id) (dict_values (entities self)).

Definition entity_context (entity : SchemaOrgEntity) : pystr :=
  let props :=
    py_join (lit ", ")
      (List.map (fun kv => fst kv ++ lit ": " ++ py_str (snd kv))
         (properties entity)) in
  name entity ++ lit " (type: " ++ schema_type entity ++ lit ", "
    ++ props ++ lit ")".

(** Body of the second loop of [query] (lines 147-151): the line added
    for a relation, or nothing when the guard skips it. A pydantic model
    instance is always true, so the guard tests for [None]. *)
Definition relation_context
    (self : KnowledgeGraphConstructor) (relation : SchemaOrgRelation)
  : option pystr :=
  let subject := entity_with_id self (subject_id relation) in
  let obj := entity_with_id self (object_id relation) in
  match subject, obj with
  | Some subject, Some obj =>
      Some (name subject ++ lit " " ++ predicate relation ++ lit " "
              ++ name obj)
  | _, _ => None
  end.

Definition option_list {A} (o : option A) : list A :=
  match o with Some a => [a] | None => [] end.

Definition context_parts (self : KnowledgeGraphConstructor) : list pystr :=
  List.map entity_context (dict_values (entities self))
  ++ List.flat_map (fun r => option_list (relation_context self r))
       (relations self).

Definition query_prompt
    (self : KnowledgeGraphConstructor) (question : pystr) : pystr :=
  let context := py_join [LF] (context_parts self) in
  lit "Based on the following knowledge graph, answer the question."
    ++ [LF; LF] ++ lit "Knowledge Graph:" ++ [LF] ++ context
    ++ [LF; LF] ++ lit "Question: " ++ question ++ [LF; LF]
    ++ lit "Answer concisely based only on the information "
    ++ lit "in the knowledge graph.".

(** [LLMClient.generate]: the Oracle's [reply] to [prompt]. *)
Definition generate (prompt : pystr) (reply : result pystr) : result pystr :=
  reply.

(** [KnowledgeGraphConstructor.query] *)
Definition query (question : pystr) (reply : result pystr) : M pystr :=
  self <- get_self ;;
  let prompt := query_prompt self question in
  lift (generate prompt reply).

(** The graphs a session can hold: the empty one, and the one left by a
    call of [add_text] (returning or raising) on such a graph. *)
Inductive reachable : KnowledgeGraphConstructor -> Prop :=
| reachable_empty : reachable empty_KG
| reachable_add_text (self : KnowledgeGraphConstructor) (text : pystr)
    (reply : result pystr) (uuid4 : nat -> pystr) :
    reachable self -> reachable (fst (add_text text reply uuid4 self)).

End Program.

(** *** Linked-data export *)

Definition node : Type := dict pyval.

Definition AT_ID : pystr := lit "@id".

(** First loop of [to_jsonld]: [entity_uri_map]. *)
Definition entity_uri_map (self : KnowledgeGraphConstructor) : dict pystr :=
  List.fold_left
    (fun m entity =>
       dict_set (entity_id entity) (_build_uri (entity_id entity)) m)
    (dict_values (entities self)) [].

(** The dict display in the second loop of [to_jsonld]. *)
Definition make_node (uri_map : dict pystr) (entity : SchemaOrgEntity)
  : result node :=
  match dict_get (entity_id entity) uri_map with
  | None => Raise KeyError
  | Some uri =>
      Ok (dict_update
            [(AT_ID, PStr uri);
             (lit "@type", PStr (schema_type entity));
             (lit "name", PStr (name entity))]
            (properties entity))
  end.

Fixpoint make_nodes (uri_map : dict pystr) (es : list SchemaOrgEntity)
  : result (list node) :=
  match es with
  | [] => ret []
  | e :: es' =>
      n <- make_node uri_map e ;;
      ns <- make_nodes uri_map es' ;;
      ret (n :: ns)
  end.

(** The inner loop of [to_jsonld] (lines 188-191): the first node whose
    ["@id"] equals [subject_uri] receives the reference. *)
Fixpoint attach (subject_uri pred : pystr) (ref : pyval) (graph : list node)
  : result (list node) :=
  match graph with
  | [] => ret []
  | n :: graph' =>
      match dict_get AT_ID n with
      | None => Raise KeyError
      | Some id =>
          if py_eq_str id subject_uri
          then ret (dict_set pred ref n :: graph')
          else graph'' <- attach subject_uri pred ref graph' ;;
               ret (n :: graph'')
      end
  end.

(** The guard of line 187. *)
Definition jsonld_guard (uri_map : dict pystr) (relation : SchemaOrgRelation)
  : bool :=
  truthy (dict_get (subject_id relation) uri_map)
  && truthy (dict_get (object_id relation) uri_map).

(** Body of the third loop of [to_jsonld] (lines 183-191). *)
Definition attach_relation (uri_map : dict pystr) (graph : list node)
    (relation : SchemaOrgRelation) : result (list node) :=
  match dict_get (subject_id relation) uri_map,
        dict_get (object_id relation) uri_map with
  | Some subject_uri, Some object_uri =>
      if jsonld_guard uri_map relation
      then attach subject_uri (predicate relation)
             (PDict [(AT_ID, PStr object_uri)]) graph
      else ret graph
  | _, _ => ret graph
  end.

Fixpoint attach_relations (uri_map : dict pystr) (graph : list node)
    (rs : list SchemaOrgRelation) : result (list node) :=
  match rs with
  | [] => ret graph
  | r :: rs' =>
      graph' <- attach_relation uri_map graph r ;;
      attach_relations uri_map graph' rs'
  end.

(** The list [graph] at the end of [to_jsonld]. *)
Definition jsonld_graph
    (self : KnowledgeGraphConstructor) : result (list node) :=
  let uri_map := entity_uri_map self in
  graph <- make_nodes uri_map (dict_values (entities self)) ;;
  attach_relations uri_map graph (relations self).

(** [KnowledgeGraphConstructor.to_jsonld] *)
Definition to_jsonld : M pyval :=
  self <- get_self ;;
  graph <- lift (jsonld_graph self) ;;
  ret (PDict [(lit "@context", PStr (lit "https://schema.org"));
              (lit "@graph", PList (List.map PDict graph))]).

(** *** Triple-text export *)

Definition rdf_entity_lines (entity : SchemaOrgEntity) : list pystr :=
  let clean_id := _sanitize_id (entity_id entity) in
  [ lit "kg:" ++ clean_id ++ lit " a schema:" ++ schema_type entity ++ lit " ;";
    lit "    schema:name " ++ [DQUOTE] ++ name entity ++ [DQUOTE] ++ lit " .";
    [] ].

Definition rdf_relation_line (relation : SchemaOrgRelation) : pystr :=
  let subject_id := _sanitize_id (subject_id relation) in
  let object_id := _sanitize_id (object_id relation) in
  lit "kg:" ++ subject_id ++ lit " schema:" ++ predicate relation
    ++ lit " kg:" ++ object_id ++ lit " .".

Definition rdf_lines (self : KnowledgeGraphConstructor) : list pystr :=
  [ lit "@prefix schema: <https://schema.org/> .";
    lit "@prefix kg: <" ++ URI_PREFIX ++ lit ":> .";
    [] ]
  ++ List.flat_map rdf_entity_lines (dict_values (entities self))
  ++ List.map rdf_relation_line (relations self).

(** [KnowledgeGraphConstructor.to_rdf] *)
Definition to_rdf : M pystr :=
  self <- get_self ;;
  ret (py_join [LF] (rdf_lines self)).

(** [KnowledgeGraphConstructor.get_stats] *)
Record Stats : Type := {
  stats_entities : nat;
  stats_relations : nat;
  texts_processed : nat
}.

Definition get_stats : M Stats :=
  self <- get_self ;;
  ret {| stats_entities := List.length (entities self);
         stats_relations := List.length (relations self);
         texts_processed := List.length (texts self) |}.

(** *** Reading an export back *)

(** The lines of a text, cut at every line feed. *)
Fixpoint lines_of (s : pystr) : list pystr :=
  match s with
  | [] => [[]]
  | c :: s' => if c =? LF then [] :: lines_of s' else push_front c (lines_of s')
  end.

(** The non-empty lines after the two header lines. *)
Definition body_lines (doc : pystr) : list pystr :=
  List.filter (fun l => negb (is_empty l)) (List.skipn 2 (lines_of doc)).

(** The value of the result of a run, when it returned. *)
Definition returned {A} (run : KnowledgeGraphConstructor * result A)
  : option A :=
  match snd run with Ok a => Some a | Raise _ => None end.

(** The length of the array under ["@graph"] in a document. *)
Definition graph_length (doc : pyval) : option nat :=
  match doc with
  | PDict d =>
      match dict_get (lit "@graph") d with
      | Some (PList g) => Some (List.length g)
      | _ => None
      end
  | _ => None
  end.

(** ** A reference runtime

    Used to run the program on concrete responses. [ref_json_loads]
    decodes the JSON fragment made of objects, arrays, strings with the
    single-character escapes, integers and the three literals, as
    [json.loads] does (strict mode: a control character inside a string
    is an error; a repeated key keeps its first position and its last
    value). A document that uses anything else ([\u] escapes, fractions
    and exponents, [NaN], [Infinity]) is outside the fragment: whether
    [json.loads] would decode it or reject it, it is reported as
    [UNSUPPORTED], which is neither a value nor a decoding error, and the
    decoder is run on no such document. Validation follows pydantic 2: a
    [str] field
    takes a [str], a [Dict[str, Any]] field takes a [dict]. *)

Inductive parsed (A : Type) : Type :=
| Parsed (a : A) (rest : pystr)
| Invalid
| Unsupported.

Arguments Parsed {A} a rest.
Arguments Invalid {A}.
Arguments Unsupported {A}.

Definition json_ws (c : N) : bool :=
  (c =? 32) || (c =? 9) || (c =? 10) || (c =? 13).

Fixpoint skip_ws (s : pystr) : pystr :=
  match s with
  | c :: s' => if json_ws c then skip_ws s' else s
  | [] => []
  end.

Definition unescape (c : N) : option N :=
  if c =? 34 then Some 34            (* quote *)
  else if c =? 92 then Some 92       (* backslash *)
  else if c =? 47 then Some 47       (* slash *)
  else if c =? 98 then Some 8        (* b: backspace *)
  else if c =? 102 then Some 12      (* f: form feed *)
  else if c =? 110 then Some 10      (* n: line feed *)
  else if c =? 114 then Some 13      (* r: carriage return *)
  else if c =? 116 then Some 9       (* t: tab *)
  else None.

(** The characters after an opening quote, up to the closing one. *)
Fixpoint parse_string (s acc : pystr) : parsed pystr :=
  match s with
  | [] => Invalid
  | c :: s' =>
      if c =? 34 then Parsed (List.rev acc) s'
      else if c =? 92 then
        match s' with
        | [] => Invalid
        | e :: s'' =>
            if e =? 117 then Unsupported
            else match unescape e with
                 | Some x => parse_string s'' (x :: acc)
                 | None => Invalid
                 end
        end
      else if c <? 32 then Invalid
      else parse_string s' (c :: acc)
  end.

Definition is_digit (c : N) : bool := in_range 48 57 c.

Fixpoint parse_digits (s : pystr) (acc : Z) : Z * pystr :=
  match s with
  | c :: s' =>
      if is_digit c then parse_digits s' (10 * acc + Z.of_N (c - 48))%Z
      else (acc, s)
  | [] => (acc, [])
  end.

(** An integer whose sign, if any, has been read; a fraction or an
    exponent after it makes the number a float. *)
Definition parse_int (negative : bool) (s : pystr) : parsed pyval :=
  match s with
  | c :: s' =>
      if is_digit c then
        let '(z, rest) := if c =? 48 then (0%Z, s') else parse_digits s 0%Z in
        match rest with
        | d :: _ =>
            if (d =? 46) || (d =? 101) || (d =? 69) then Unsupported
            else Parsed (PInt (if negative then (- z)%Z else z)) rest
        | [] => Parsed (PInt (if negative then (- z)%Z else z)) rest
        end
      else if negative && (c =? 73) then Unsupported
      else Invalid
  | [] => Invalid
  end.

Definition parse_literal (s : pystr) : parsed pyval :=
  if starts_with (lit "null") s then Parsed PNone (List.skipn 4 s)
  else if starts_with (lit "true") s then Parsed (PBool true) (List.skipn 4 s)
  else if starts_with (lit "false") s then Parsed (PBool false) (List.skipn 5 s)
  else if starts_with (lit "NaN") s || starts_with (lit "Infinity") s
  then Unsupported
  else Invalid.

(** Recursive descent; every call spends one unit of [fuel]. *)
Fixpoint parse_value (fuel : nat) (s : pystr) : parsed pyval :=
  match fuel with
  | O => Unsupported
  | S fuel' =>
      match s with
      | [] => Invalid
      | c :: s' =>
          if c =? 34 then
            match parse_string s' [] with
            | Parsed str rest => Parsed (PStr str) rest
            | Invalid => Invalid
            | Unsupported => Unsupported
            end
          else if c =? 91 then
            match skip_ws s' with
            | d :: rest =>
                if d =? 93 then Parsed (PList []) rest
                else parse_elements fuel' (d :: rest) []
            | [] => Invalid
            end
          else if c =? 123 then
            match skip_ws s' with
            | d :: rest =>
                if d =? 125 then Parsed (PDict []) rest
                else parse_members fuel' (d :: rest) []
            | [] => Invalid
            end
          else if c =? 45 then parse_int true s'
          else if is_digit c then parse_int false s
          else parse_literal s
      end
  end

with parse_elements (fuel : nat) (s : pystr) (acc : list pyval)
  : parsed pyval :=
  match fuel with
  | O => Unsupported
  | S fuel' =>
      match parse_value fuel' s with
      | Parsed v rest =>
          match skip_ws rest with
          | d :: rest' =>
              if d =? 44 then parse_elements fuel' (skip_ws rest') (v :: acc)
              else if d =? 93 then Parsed (PList (List.rev (v :: acc))) rest'
              else Invalid
          | [] => Invalid
          end
      | Invalid => Invalid
      | Unsupported => Unsupported
      end
  end

with parse_members (fuel : nat) (s : pystr) (acc : dict pyval)
  : parsed pyval :=
  match fuel with
  | O => Unsupported
  | S fuel' =>
      match s with
      | q :: s' =>
          if q =? 34 then
            match parse_string s' [] with
            | Parsed key rest =>
                match skip_ws rest with
                | colon :: rest' =>
                    if colon =? 58 then
                      match parse_value fuel' (skip_ws rest') with
                      | Parsed v rest'' =>
                          let acc' := dict_set key v acc in
                          match skip_ws rest'' with
                          | d :: rest3 =>
                              if d =? 44
                              then parse_members fuel' (skip_ws rest3) acc'
                              else if d =? 125 then Parsed (PDict acc') rest3
                              else Invalid
                          | [] => Invalid
                          end
                      | Invalid => Invalid
                      | Unsupported => Unsupported
                      end
                    else Invalid
                | [] => Invalid
                end
            | Invalid => Invalid
            | Unsupported => Unsupported
            end
          else Invalid
      | [] => Invalid
      end
  end.

Definition UNSUPPORTED : exn := OtherError (lit "unsupported").

Definition ref_json_loads (s : pystr) : result pyval :=
  match parse_value (2 * List.length s + 2) (skip_ws s) with
  | Parsed v rest =>
      match skip_ws rest with
      | [] => Ok v
      | _ :: _ => Raise JSONDecodeError
      end
  | Invalid => Raise JSONDecodeError
  | Unsupported => Raise UNSUPPORTED
  end.

Definition ref_validate_str (v : pyval) : option pystr :=
  match v with PStr s => Some s | _ => None end.

Definition ref_validate_dict (v : pyval) : option (dict pyval) :=
  match v with PDict d => Some d | _ => None end.

Fixpoint decimal_digits (fuel : nat) (n : N) (acc : pystr) : pystr :=
  match fuel with
  | O => acc
  | S fuel' =>
      let acc' := (48 + n mod 10) :: acc in
      if n <? 10 then acc' else decimal_digits fuel' (n / 10) acc'
  end.

Definition decimal (z : Z) : pystr :=
  let n := Z.abs_N z in
  (if (z <? 0)%Z then [45] else [])
    ++ decimal_digits (S (N.to_nat (N.log2 n))) n [].

(** [str(v)], exact on [None], booleans, integers and strings; the
    examples format no other value. *)
Definition ref_py_str (v : pyval) : pystr :=
  match v with
  | PNone => lit "None"
  | PBool true => lit "True"
  | PBool false => lit "False"
  | PInt z => decimal z
  | PStr s => s
  | PFloat _ | PList _ | PDict _ => lit "..."
  end.

Definition reference_runtime : PyRuntime :=
  {| json_loads := ref_json_loads;
     validate_str := ref_validate_str;
     validate_dict := ref_validate_dict;
     py_str := ref_py_str |}.

(** Identifiers in the shape [uuid4] prints them, numbered from 1 in
    the last twelve digits. *)
Definition ref_uuid4 (i : nat) : pystr :=
  lit "00000000-0000-4000-8000-"
    ++ List.tl (decimal (10 ^ 12 + Z.of_nat (S i) mod 10 ^ 12)).

(** ** Predicates and example data used in the statements *)

(** The stored entry [kv] carries the queried name, up to
    canonicalization. *)
Definition name_matches (q : pystr) (kv : pystr * SchemaOrgEntity) : Prop :=
  _sanitize_id (name (snd kv)) = _sanitize_id q.


Definition apple_person : SchemaOrgEntity :=
  {| entity_id := ref_uuid4 0; name := lit "Apple";
     schema_type := lit "Person"; schema_uri := lit "https://schema.org/Person";
     properties := [] |}.

Definition apple_organization : SchemaOrgEntity :=
  {| entity_id := ref_uuid4 1; name := lit "APPLE";
     schema_type := lit "Organization";
     schema_uri := lit "https://schema.org/Organization";
     properties := [] |}.

Definition two_apples : KnowledgeGraphConstructor :=
  {| entities := [(lit "Person:apple", apple_person);
                  (lit "Organization:apple", apple_organization)];
     relations := []; texts := [] |}.

(** The stored entry [kv] is filed under the dedup key of its entity. *)
Definition own_key (kv : pystr * SchemaOrgEntity) : Prop :=
  fst kv = entity_key_of (snd kv).

(** Some entity of the store [es] has the identifier [id]. *)
Definition id_stored (es : dict SchemaOrgEntity) (id : pystr) : Prop :=
  exists e, In e (dict_values es) /\ entity_id e = id.

(** Both ends of [r] are identifiers of entities of the store [es]. *)
Definition refers_to (es : dict SchemaOrgEntity) (r : SchemaOrgRelation)
  : Prop :=
  id_stored es (subject_id r) /\ id_stored es (object_id r).

Definition ALICE_TEXT : pystr :=
  lit "Alice works at Google as a software engineer.".

(** A fenced response naming Alice and Google, a relation between them
    and a relation to Bob, whom it does not list. *)
Definition ALICE_RESPONSE : pystr :=
  jlit "```json
{'entities': [
   {'name': 'Alice', 'type': 'Person', 'properties': {'jobTitle': 'engineer'}},
   {'name': 'Google', 'type': 'Organization'}],
 'relations': [
   {'subject': 'alice', 'predicate': 'worksFor', 'object': 'GOOGLE'},
   {'subject': 'Alice', 'predicate': 'knows', 'object': 'Bob'}]}
```".

(** The graph after ingesting that response on the reference runtime. *)
Definition alice_google : KnowledgeGraphConstructor :=
  fst (@add_text reference_runtime ALICE_TEXT (Ok ALICE_RESPONSE) ref_uuid4
         empty_KG).

Definition knows_bob : pyval :=
  PDict [(lit "subject", PStr (lit "Alice"));
         (lit "predicate", PStr (lit "knows"));
         (lit "object", PStr (lit "Bob"))].

Definition google_again : pyval :=
  PDict [(lit "name", PStr (lit " GOOGLE "));
         (lit "type", PStr (lit "Organization"));
         (lit "properties",
          PDict [(lit "description", PStr (lit "search company"))])].

(** No line feed in [s]. *)
Definition single_line (s : pystr) : bool :=
  List.forallb (fun c => negb (c =? LF)) s.

(** No line feed in the type or the name of an entity, nor in the
    predicate of a relation. *)
Definition single_line_graph (self : KnowledgeGraphConstructor) : bool :=
  List.forallb (fun e => single_line (schema_type e) && single_line (name e))
    (dict_values (entities self))
  && List.forallb (fun r => single_line (predicate r)) (relations self).

(** A response with one entity whose name spans two lines (the escape
    is decoded to a line feed). *)
Definition ADA_RESPONSE : pystr :=
  jlit "{'entities': [{'name': 'Ada\nLovelace', 'type': 'Person'}], 'relations': []}".

Definition ada_graph : KnowledgeGraphConstructor :=
  fst (@add_text reference_runtime (lit "Ada Lovelace wrote notes.")
         (Ok ADA_RESPONSE) ref_uuid4 empty_KG).

(** The entity [e] has the identifier [id]. *)
Definition has_id (id : pystr) (e : SchemaOrgEntity) : bool :=
  str_eqb (entity_id e) id.

Definition uri_of (e : SchemaOrgEntity) : pystr := _build_uri (entity_id e).

(** The nested reference [{"@id": object_uri}]. *)
Definition reference_to (object_uri : pystr) : pyval :=
  PDict [(AT_ID, PStr object_uri)].

(** ["@id"] is neither a property name of an entity nor the predicate of
    a relation. *)
Definition at_id_free (self : KnowledgeGraphConstructor) : bool :=
  List.forallb (fun e => negb (dict_mem AT_ID (properties e)))
    (dict_values (entities self))
  && List.forallb (fun r => negb (str_eqb (predicate r) AT_ID))
       (relations self).

(** The entities have pairwise distinct URIs. *)
Definition distinct_uris (self : KnowledgeGraphConstructor) : Prop :=
  NoDup (List.map uri_of (dict_values (entities self))).

(** Last write wins: for a stored relation [r] whose subject and object
    are stored and which no later relation matches in subject and
    predicate, the node exported for the subject holds, under the
    predicate of [r], the reference to the object of [r], once. *)
Definition last_reference_exported (self : KnowledgeGraphConstructor) : Prop :=
  forall (es1 es2 : list SchemaOrgEntity) (subject : SchemaOrgEntity)
         (before after : list SchemaOrgRelation) (r : SchemaOrgRelation),
    dict_values (entities self) = es1 ++ subject :: es2 ->
    relations self = before ++ r :: after ->
    entity_id subject = subject_id r ->
    id_stored (entities self) (object_id r) ->
    Forall (fun r' => ~ (subject_id r' = subject_id r
                         /\ predicate r' = predicate r)) after ->
    exists graph n,
      jsonld_graph self = Ok graph
      /\ List.nth_error graph (List.length es1) = Some n
      /\ dict_get (predicate r) n
         = Some (reference_to (_build_uri (object_id r)))
      /\ NoDup (dict_keys n).

(** Alice with two employers, one after the other. *)
Definition EMPLOYERS_RESPONSE : pystr :=
  jlit "{'entities': [
   {'name': 'Alice', 'type': 'Person'},
   {'name': 'Google', 'type': 'Organization'},
   {'name': 'Initech', 'type': 'Organization'}],
 'relations': [
   {'subject': 'Alice', 'predicate': 'worksFor', 'object': 'Google'},
   {'subject': 'Alice', 'predicate': 'worksFor', 'object': 'Initech'}]}".

Definition two_employers : KnowledgeGraphConstructor :=
  fst (@add_text reference_runtime (lit "Alice left Google for Initech.")
         (Ok EMPLOYERS_RESPONSE) ref_uuid4 empty_KG).

(** The same, with ["@id"] for predicate. *)
Definition AT_ID_RESPONSE : pystr :=
  jlit "{'entities': [
   {'name': 'Alice', 'type': 'Person'},
   {'name': 'Google', 'type': 'Organization'},
   {'name': 'Initech', 'type': 'Organization'}],
 'relations': [
   {'subject': 'Alice', 'predicate': '@id', 'object': 'Google'},
   {'subject': 'Alice', 'predicate': '@id', 'object': 'Initech'}]}".

Definition at_id_graph : KnowledgeGraphConstructor :=
  fst (@add_text reference_runtime (lit "Alice left Google for Initech.")
         (Ok AT_ID_RESPONSE) ref_uuid4 empty_KG).

(** The node [n] carries the URI of [e] under ["@id"], and each of its
    keys once. *)
Definition node_of (e : SchemaOrgEntity) (n : node) : Prop :=
  dict_get AT_ID n = Some (PStr (uri_of e)) /\ NoDup (dict_keys n).

Definition NOT_JSON : pystr := lit "I could not find any entity.".

(** Valid JSON that is not an object. *)
Definition ARRAY_RESPONSE : pystr := lit "[]".

(** An entity record without its name. *)
Definition NAMELESS_RESPONSE : pystr :=
  jlit "{'entities': [{'name': 'Alice', 'type': 'Person'}, {'type': 'Person'}], 'relations': []}".

(** A relation record without its predicate, between two known names. *)
Definition NO_PREDICATE_RESPONSE : pystr :=
  jlit "{'entities': [], 'relations': [{'subject': 'Alice', 'object': 'Google'}]}".

(** ** The rest of the three files *)

(** *** [SchemaOrgEntityExtractor.map_to_schemaorg]

    [str.lower] is applied to a caller's string, which may hold any
    code point: it is taken from the runtime. *)

Definition TYPE_MAPPING : dict pystr :=
  [ (lit "person", lit "Person");
    (lit "people", lit "Person");
    (lit "company", lit "Organization");
    (lit "organization", lit "Organization");
    (lit "corporation", lit "Corporation");
    (lit "startup", lit "Organization");
    (lit "location", lit "Place");
    (lit "place", lit "Place");
    (lit "city", lit "City");
    (lit "country", lit "Country");
    (lit "address", lit "PostalAddress");
    (lit "event", lit "Event");
    (lit "conference", lit "Event");
    (lit "meeting", lit "Event");
    (lit "product", lit "Product");
    (lit "software", lit "SoftwareApplication");
    (lit "service", lit "Service");
    (lit "article", lit "Article");
    (lit "book", lit "Book");
    (lit "movie", lit "Movie");
    (lit "restaurant", lit "Restaurant");
    (lit "hotel", lit "Hotel") ].

(** [d.get(k, default)] on a [dict] of the program's own. *)
Definition dict_get_default {V} (k : pystr) (default : V) (d : dict V) : V :=
  match dict_get k d with Some v => v | None => default end.

Definition map_to_schemaorg (str_lower : pystr -> pystr) (entity_type : pystr)
  : pystr :=
  let schema_type := dict_get_default (str_lower entity_type) (lit "Thing")
                       TYPE_MAPPING in
  lit "https://schema.org/" ++ schema_type.

(** Code points below 128. *)
Definition is_ascii (s : pystr) : bool := List.forallb (fun c => c <? 128) s.

(** *** [KnowledgeGraphEntry] ([schemaorg_memory_entry.py]) *)

Module Entry.

Record KnowledgeGraphEntry : Type := {
  entry_id : pystr;
  lossless_restatement : pystr;
  keywords : list pystr;
  timestamp : option pystr;
  location : option pystr;
  entities : list SchemaOrgEntity;
  relations : list SchemaOrgRelation
}.

(** The dict display of [KnowledgeGraphEntry.to_jsonld]. *)
Definition node_of_entity (entity : SchemaOrgEntity) : dict pyval :=
  dict_update
    [(lit "@id", PStr (lit "urn:kg:" ++ entity_id entity));
     (lit "@type", PStr (schema_type entity));
     (lit "name", PStr (name entity))]
    (properties entity).

(** [KnowledgeGraphEntry.to_jsonld] *)
Definition to_jsonld (self : KnowledgeGraphEntry) : pyval :=
  let graph := List.map node_of_entity (entities self) in
  PDict [(lit "@context", PStr (lit "https://schema.org"));
         (lit "@graph", PList (List.map PDict graph))].

End Entry.

(** *** [LLMClient] ([knowledge_graph_constructor.py])

    The [openai] package is outside the program: [import_openai] is the
    outcome of the import statement (the class [OpenAI], or the
    exception), and [create] the chat completion call, returning the
    content of the first choice ([None] when the choice has none). *)

Module LLMClient.

Section Client.

Variable Client : Type.
Variable import_openai
  : result (option pystr -> option pystr -> result Client).
Variable create : Client -> pystr -> pystr -> result (option pystr).

Record LLMClient : Type := {
  api_key : option pystr;
  model : pystr;
  base_url : option pystr;
  _client : option Client
}.

Definition ImportError : exn := OtherError (lit "ImportError").

(** [a or b] on [Optional[str]]. *)
Definition py_or (a b : option pystr) : option pystr :=
  if truthy a then a else b.

(** [LLMClient.__init__]; [environ_key] is
    [os.environ.get("OPENAI_API_KEY")]. *)
Definition __init__ (environ_key : option pystr) (api_key_ : option pystr)
    (model_ : pystr) (base_url_ : option pystr) : LLMClient :=
  {| api_key := py_or api_key_ environ_key;
     model := model_;
     base_url := base_url_;
     _client := None |}.

(** The exceptions [except ImportError] catches: [ImportError] and its
    subclass [ModuleNotFoundError], which a failed import raises. *)
Definition is_ImportError (n : pystr) : bool :=
  str_eqb n (lit "ImportError") || str_eqb n (lit "ModuleNotFoundError").

(** [try: body except ImportError: raise ImportError(...)] *)
Definition except_ImportError {A} (body : result A) : result A :=
  match body with
  | Raise (OtherError n) =>
      if is_ImportError n then Raise ImportError
      else Raise (OtherError n)
  | other => other
  end.

(** [LLMClient._get_client] *)
Definition _get_client (self : LLMClient) : LLMClient * result Client :=
  match _client self with
  | None =>
      match except_ImportError
              (OpenAI <- import_openai ;;
               OpenAI (api_key self) (base_url self)) with
      | Ok client =>
          ({| api_key := api_key self; model := model self;
              base_url := base_url self; _client := Some client |},
           Ok client)
      | Raise e => (self, Raise e)
      end
  | Some client => (self, Ok client)
  end.

(** [LLMClient.generate] *)
Definition generate (self : LLMClient) (prompt : pystr)
  : LLMClient * result (option pystr) :=
  match _get_client self with
  | (self', Ok client) => (self', create client (model self') prompt)
  | (self', Raise e) => (self', Raise e)
  end.

End Client.

End LLMClient.

(** *** Predicates and example data for the further properties *)

Definition BACKTICK : N := 96.

(** No backtick in [s]. *)
Definition no_backtick (s : pystr) : bool :=
  List.forallb (fun c => negb (c =? BACKTICK)) s.

(** [s] does not begin with a backtick. *)
Definition no_leading_backtick (s : pystr) : bool :=
  match s with
  | c :: _ => negb (c =? BACKTICK)
  | [] => true
  end.

(** Every character of [s] is in the identifier class. *)
Definition id_chars (s : pystr) : bool := List.forallb id_char s.

(** An entity record with a [str] name, a [str] type and, if any, a
    [dict] of properties. *)
Definition entity_record_ok (entity_data : pyval) : bool :=
  match entity_data with
  | PDict fields =>
      match dict_get (lit "name") fields, dict_get (lit "type") fields with
      | Some (PStr _), Some (PStr _) =>
          match dict_get (lit "properties") fields with
          | None | Some (PDict _) => true
          | Some _ => false
          end
      | _, _ => false
      end
  | _ => false
  end.

(** A relation record whose subject, predicate and object are [str]. *)
Definition relation_record_ok (rel_data : pyval) : bool :=
  match rel_data with
  | PDict fields =>
      match dict_get (lit "subject") fields,
            dict_get (lit "predicate") fields,
            dict_get (lit "object") fields with
      | Some (PStr _), Some (PStr _), Some (PStr _) => true
      | _, _, _ => false
      end
  | _ => false
  end.

(** The dedup pair of an entity. *)
Definition dedup_pair (e : SchemaOrgEntity) : pystr * pystr :=
  (schema_type e, _sanitize_id (name e)).

(** The graph [self] with [es] and [rs] appended to its stores and [ts]
    to its log. *)
Definition extended (self : KnowledgeGraphConstructor)
    (es : dict SchemaOrgEntity) (rs : list SchemaOrgRelation)
    (ts : list pystr) : KnowledgeGraphConstructor :=
  {| entities := entities self ++ es;
     relations := relations self ++ rs;
     texts := texts self ++ ts |}.

(** [pre] put in front of the first part of a split. *)
Definition prepend (pre : pystr) (parts : list pystr) : list pystr :=
  match parts with
  | p :: ps => (pre ++ p) :: ps
  | [] => [pre]
  end.

(** Prose, a fenced payload, prose. *)
Definition fenced (pre body post : pystr) : pystr :=
  pre ++ FENCE_JSON ++ body ++ FENCE ++ post.

Definition bob_record : pyval :=
  PDict [(lit "name", PStr (lit "Bob")); (lit "type", PStr (lit "Person"))].

Definition works_for_record : pyval :=
  PDict [(lit "subject", PStr (lit "ALICE"));
         (lit "predicate", PStr (lit "worksFor"));
         (lit "object", PStr (lit "google"))].

Definition EMPTY_OBJECT : pystr := jlit "{'entities': [], 'relations': []}".

(** The entry holding the entities of [alice_google]. *)
Definition alice_google_entry : Entry.KnowledgeGraphEntry :=
  {| Entry.entry_id := ref_uuid4 9;
     Entry.lossless_restatement := ALICE_TEXT;
     Entry.keywords := [];
     Entry.timestamp := None;
     Entry.location := None;
     Entry.entities := dict_values (entities alice_google);
     Entry.relations := [] |}.

(** [alice_google] without its relations. *)
Definition alice_google_entities : KnowledgeGraphConstructor :=
  {| entities := entities alice_google; relations := [];
     texts := texts alice_google |}.

(** The two header lines of the triple-text export. *)
Definition RDF_HEADER : list pystr :=
  [ lit "@prefix schema: <https://schema.org/> .";
    lit "@prefix kg: <urn:kg:> ." ].

(** A stand-in for the [openai] package: the client is the key it was
    built with, and the completion echoes the model and the prompt. *)
Definition echo_openai
  : result (option pystr -> option pystr -> result pystr) :=
  Ok (fun key _ =>
        match key with
        | Some k => Ok k
        | None => Raise (OtherError (lit "OpenAIError"))
        end).

Definition echo_create (client model_ prompt : pystr)
  : result (option pystr) :=
  Ok (Some (model_ ++ lit ": " ++ prompt)).

Definition PROSE_RESPONSE : pystr :=
  fenced (lit "Here is the graph you asked for: ") EMPTY_OBJECT
    (lit " Let me know if it helps.").

(** The exceptions that the program's own statements raise on a decoded
    value of the wrong shape. *)
Definition shape_error (e : exn) : Prop :=
  e = AttributeError \/ e = KeyError \/ e = TypeError \/ e = ValidationError.

(** The line of the query context for a relation joining [subject] and
    [obj]. *)
Definition context_line (subject obj : SchemaOrgEntity)
    (relation : SchemaOrgRelation) : pystr :=
  name subject ++ lit " " ++ predicate relation ++ lit " " ++ name obj.

(** *** A runtime with CPython's recursion limit

    CPython's decoder calls itself once for every array it enters and
    gives up with [RecursionError] at the interpreter's recursion limit
    (1000 by default): a document that opens that many arrays in a row
    exhausts the limit before any other error can be met. Every other
    document is decoded as by [ref_json_loads]. *)

Definition RecursionError : exn := OtherError (lit "RecursionError").

Definition RECURSION_LIMIT : nat := 1000.

(** The number of opening square brackets at the head of [s]. *)
Fixpoint leading_brackets (s : pystr) : nat :=
  match s with
  | c :: s' => if c =? 91 then S (leading_brackets s') else O
  | [] => O
  end.

Definition limited_json_loads (s : pystr) : result pyval :=
  if (RECURSION_LIMIT <=? leading_brackets s)%nat
  then Raise RecursionError
  else ref_json_loads s.

Definition cpython_runtime : PyRuntime :=
  {| json_loads := limited_json_loads;
     validate_str := ref_validate_str;
     validate_dict := ref_validate_dict;
     py_str := ref_py_str |}.

(** Two thousand opening brackets and nothing else. *)
Definition DEEP_RESPONSE : pystr := List.repeat 91 2000.

(** * Properties *)

(** ** Strings and dictionaries *)

Ltac cmp_cases :=
  repeat (match goal with
          | |- context [N.leb ?a ?b] => destruct (N.leb_spec a b)
          | |- context [N.eqb ?a ?b] => destruct (N.eqb_spec a b)
          | H : context [N.leb ?a ?b] |- _ => destruct (N.leb_spec a b)
          | H : context [N.eqb ?a ?b] |- _ => destruct (N.eqb_spec a b)
          end; simpl in *; try lia; try discriminate; try reflexivity).

Lemma str_eqb_eq (a b : pystr) : str_eqb a b = true <-> a = b.
Proof.
  revert b; induction a as [|x a IH]; intros [|y b]; simpl;
    try (split; [discriminate | congruence]); try tauto.
  rewrite andb_true_iff, N.eqb_eq, IH. split.
  - intros [-> ->]; reflexivity.
  - intros E; injection E; auto.
Qed.

Lemma str_eqb_refl (a : pystr) : str_eqb a a = true.
Proof. apply str_eqb_eq; reflexivity. Qed.

Lemma str_eqb_neq (a b : pystr) : str_eqb a b = false <-> a <> b.
Proof.
  rewrite <- str_eqb_eq. destruct (str_eqb a b); split; congruence.
Qed.

Lemma str_eqb_spec (a b : pystr) : reflect (a = b) (str_eqb a b).
Proof.
  destruct (str_eqb a b) eqn:E; constructor.
  - apply str_eqb_eq; assumption.
  - apply str_eqb_neq; assumption.
Qed.

Lemma id_char_bounds c : id_char c = true -> 45 <= c <= 122.
Proof. unfold id_char, in_range. intros H. cmp_cases. Qed.

Lemma isspace_outside c : 45 <= c <= 122 -> py_isspace c = false.
Proof. unfold py_isspace, in_range. intros H. cmp_cases. Qed.

Lemma id_char_not_space c : id_char c = true -> py_isspace c = false.
Proof. intros H. apply isspace_outside, id_char_bounds, H. Qed.

Lemma id_char_lower c : id_char c = true -> id_char (lower_char c) = true.
Proof.
  unfold lower_char, in_range. intros H.
  destruct (N.leb_spec 65 c), (N.leb_spec c 90); simpl; auto.
  unfold id_char, in_range. cmp_cases.
Qed.

Lemma lower_char_idem c : lower_char (lower_char c) = lower_char c.
Proof. unfold lower_char, in_range. cmp_cases. Qed.

Lemma filter_id (A : Type) (f : A -> bool) (l : list A) :
  Forall (fun x => f x = true) l -> filter f l = l.
Proof.
  induction 1 as [|x l Hx _ IH]; simpl; [reflexivity|].
  rewrite Hx, IH; reflexivity.
Qed.

Lemma sanitize_chars text :
  Forall (fun c => id_char c = true) (_sanitize_id text).
Proof.
  unfold _sanitize_id, py_lower, sub_non_id.
  apply Forall_map, Forall_forall. intros c Hc.
  apply filter_In in Hc. apply id_char_lower, Hc.
Qed.

Lemma sanitize_fixes_clean s :
  Forall (fun c => id_char c = true) s ->
  Forall (fun c => lower_char c = c) s ->
  _sanitize_id s = s.
Proof.
  intros Hid Hlow. unfold _sanitize_id, sub_spaces, sub_non_id, py_lower.
  assert (Hsp : filter (fun c => negb (py_isspace c)) s = s).
  { apply filter_id. eapply Forall_impl; [|exact Hid]. simpl. intros c Hc.
    rewrite (id_char_not_space _ Hc); reflexivity. }
  rewrite Hsp, (filter_id _ Hid).
  clear Hsp Hid. induction Hlow as [|c s Hc _ IH]; simpl; [reflexivity|].
  rewrite Hc, IH; reflexivity.
Qed.

(** C5. [_sanitize_id] computes the specification's [canonicalize] (drop
    whitespace, drop every character outside [A-Za-z0-9-_.], lower-case)
    on every string; the empty string is among its results, also for a
    non-empty input; and it is idempotent. *)
Theorem sanitize_id_canonicalize_idempotent :
  (forall x, _sanitize_id x = canonicalize_spec x)
  /\ _sanitize_id [] = []
  /\ _sanitize_id (lit " !? ") = []
  /\ (forall x, _sanitize_id (_sanitize_id x) = _sanitize_id x).
Proof.
  split; [reflexivity|]. split; [reflexivity|]. split; [reflexivity|].
  intros x. apply sanitize_fixes_clean.
  - apply sanitize_chars.
  - unfold _sanitize_id, py_lower. apply Forall_map, Forall_forall.
    intros c _. apply lower_char_idem.
Qed.

Lemma dict_get_In V (k : pystr) (v : V) (d : dict V) :
  dict_get k d = Some v -> In (k, v) d.
Proof.
  induction d as [|[k' v'] d IH]; simpl; [discriminate|].
  destruct (str_eqb_spec k' k) as [->|_].
  - intros E; injection E as ->; left; reflexivity.
  - intros E; right; apply IH, E.
Qed.

Lemma In_dict_mem V (k : pystr) (v : V) (d : dict V) :
  In (k, v) d -> dict_mem k d = true.
Proof.
  unfold dict_mem. induction d as [|[k' v'] d IH]; simpl; [tauto|].
  intros [E|H].
  - injection E as -> ->. rewrite str_eqb_refl; reflexivity.
  - destruct (str_eqb k' k); [reflexivity | apply IH, H].
Qed.

Lemma dict_set_absent V (k : pystr) (v : V) (d : dict V) :
  dict_get k d = None -> dict_set k v d = d ++ [(k, v)].
Proof.
  induction d as [|[k' v'] d IH]; simpl; [reflexivity|].
  destruct (str_eqb k' k); [discriminate|].
  intros E; rewrite (IH E); reflexivity.
Qed.

Lemma dict_get_set_same V (k : pystr) (v : V) (d : dict V) :
  dict_get k (dict_set k v d) = Some v.
Proof.
  induction d as [|[k' v'] d IH]; simpl.
  - rewrite str_eqb_refl; reflexivity.
  - destruct (str_eqb k' k) eqn:E; simpl; rewrite E; [reflexivity | exact IH].
Qed.

Lemma dict_get_set_other V (k k0 : pystr) (v : V) (d : dict V) :
  k0 <> k -> dict_get k0 (dict_set k v d) = dict_get k0 d.
Proof.
  intros Hne. induction d as [|[k' v'] d IH]; simpl.
  - destruct (str_eqb_spec k k0); [congruence | reflexivity].
  - destruct (str_eqb_spec k' k) as [->|Hk]; simpl.
    + destruct (str_eqb_spec k k0); [congruence | reflexivity].
    + rewrite IH; reflexivity.
Qed.

Lemma dict_keys_set V (k : pystr) (v : V) (d : dict V) :
  dict_keys (dict_set k v d)
  = if dict_mem k d then dict_keys d else dict_keys d ++ [k].
Proof.
  unfold dict_mem, dict_keys. induction d as [|[k' v'] d IH]; simpl.
  - reflexivity.
  - destruct (str_eqb k' k) eqn:E; simpl; [reflexivity|].
    rewrite IH. destruct (dict_get k d); reflexivity.
Qed.

Lemma KG_eta (self : KnowledgeGraphConstructor) :
  {| entities := entities self; relations := relations self;
     texts := texts self |} = self.
Proof. destruct self; reflexivity. Qed.

(** ** The lookup by name *)

Lemma find_key_loop_spec (sq : pystr) (items : dict SchemaOrgEntity) :
  match find_key_loop sq items with
  | Some key =>
      exists before e after,
        items = before ++ (key, e) :: after
        /\ _sanitize_id (name e) = sq
        /\ Forall (fun kv => _sanitize_id (name (snd kv)) <> sq) before
  | None => Forall (fun kv => _sanitize_id (name (snd kv)) <> sq) items
  end.
Proof.
  induction items as [|[k e] items IH]; simpl; [constructor|].
  destruct (str_eqb_spec (_sanitize_id (name e)) sq) as [E|N].
  - exists [], e, items. repeat split; auto.
  - destruct (find_key_loop sq items) as [key|].
    + destruct IH as (before & e' & after & -> & Hm & Hb).
      exists ((k, e) :: before), e', after. repeat split; auto.
    + constructor; auto.
Qed.

Lemma find_key_loop_In (sq key : pystr) (items : dict SchemaOrgEntity) :
  find_key_loop sq items = Some key ->
  exists e, dict_get key items = Some e /\ In (key, e) items.
Proof.
  induction items as [|[k e] items IH]; simpl; [discriminate|].
  destruct (str_eqb (_sanitize_id (name e)) sq).
  - intros E; injection E as <-. rewrite str_eqb_refl.
    exists e; split; auto.
  - intros E. destruct (IH E) as (e' & Hg & Hin).
    destruct (str_eqb_spec k key) as [->|_].
    + exists e; split; auto.
    + exists e'; split; auto.
Qed.

(** C6. [_find_entity_key] canonicalizes the queried name and scans the
    stored entities in insertion order: its result is the key of the
    first entity whose canonicalized name equals the canonicalized query,
    whatever its type, and [None] exactly when no stored entity matches.
    With a Person and an Organization both named Apple, the one stored
    first is found. *)
Theorem find_entity_key_first_match
    (self : KnowledgeGraphConstructor) (q : pystr) :
  match _find_entity_key self q with
  | Some key =>
      exists before e after,
        entities self = before ++ (key, e) :: after
        /\ name_matches q (key, e)
        /\ Forall (fun kv => ~ name_matches q kv) before
  | None => Forall (fun kv => ~ name_matches q kv) (entities self)
  end
  /\ _find_entity_key two_apples (lit " apple") = Some (lit "Person:apple").
Proof.
  split; [|reflexivity].
  unfold _find_entity_key, name_matches.
  apply (find_key_loop_spec (_sanitize_id q) (entities self)).
Qed.

(** ** The extraction step *)

Lemma split_from_nonempty (sep : pystr) (skip : nat) (s : pystr) :
  split_from sep skip s <> [].
Proof.
  revert skip; induction s as [|c s IH]; intros skip; simpl; [discriminate|].
  destruct skip; [|apply IH].
  destruct (starts_with sep (c :: s)); [discriminate|].
  specialize (IH 0%nat). destruct (split_from sep 0 s); [congruence|].
  discriminate.
Qed.

Lemma contains_split (sep s : pystr) :
  sep <> [] -> contains sep s = true ->
  exists a b rest, py_split s sep = a :: b :: rest.
Proof.
  intros Hsep. unfold py_split.
  induction s as [|c s IH]; simpl.
  - destruct sep; [congruence | discriminate].
  - destruct (starts_with sep (c :: s)) eqn:E; simpl.
    + intros _.
      pose proof (split_from_nonempty sep (pred (List.length sep)) s) as Hn.
      destruct (split_from sep (pred (List.length sep)) s) as [|b rest];
        [congruence|]. exists [], b, rest; reflexivity.
    + intros Hc. destruct (IH Hc) as (a & b & rest & ->).
      exists (c :: a), b, rest; reflexivity.
Qed.

Lemma py_split_head (s sep : pystr) : exists a rest, py_split s sep = a :: rest.
Proof.
  pose proof (split_from_nonempty sep 0 s) as Hn. unfold py_split.
  destruct (split_from sep 0 s) as [|a rest]; [congruence|].
  exists a, rest; reflexivity.
Qed.

(** Removing the fence never raises: the index [1] is read only when the
    fence occurs, and the index [0] of a split always exists. *)
Lemma unfence_returns (response : pystr) :
  exists payload, unfence response = Ok payload.
Proof.
  unfold unfence.
  destruct (contains FENCE_JSON response) eqn:Ej.
  - destruct (contains_split (sep := FENCE_JSON) response)
      as (a & b & rest & ->); [discriminate | assumption |]. simpl.
    destruct (py_split_head b FENCE) as (a' & rest' & ->).
    exists a'; reflexivity.
  - destruct (contains FENCE response) eqn:Ef.
    + destruct (contains_split (sep := FENCE) response) as (a & b & rest & ->);
        [discriminate | assumption |]. simpl.
      destruct (py_split_head b FENCE) as (a' & rest' & ->).
      exists a'; reflexivity.
    + exists response; reflexivity.
Qed.

Section Ingestion.

Context {RT : PyRuntime}.

Lemma parse_response_decode_error (response payload : pystr) :
  unfence response = Ok payload ->
  json_loads (py_strip payload) = Raise JSONDecodeError ->
  _parse_response response = Ok (PList [], PList []).
Proof.
  intros Hu Hj. unfold _parse_response. rewrite Hu. simpl. rewrite Hj.
  reflexivity.
Qed.

(** Only [JSONDecodeError] is caught: a decoded value that is not a
    [dict] has no [get], whatever the runtime. *)
Lemma parse_response_non_object (response payload : pystr) (data : pyval) :
  unfence response = Ok payload ->
  json_loads (py_strip payload) = Ok data ->
  (forall d, data <> PDict d) ->
  _parse_response response = Raise AttributeError.
Proof.
  intros Hu Hj Hd. unfold _parse_response. rewrite Hu. simpl. rewrite Hj.
  destruct data; try reflexivity. destruct (Hd d eq_refl).
Qed.

(** X20. When [json.loads] raises [JSONDecodeError] on the text left
    after removing the fence and the surrounding whitespace,
    [_parse_response] returns the pair of two empty lists, and [add_text]
    returns normally having appended the text to the log and nothing
    else: entities and relations are as before and [texts_processed] is
    one more. *)
Theorem malformed_response_is_empty_extraction
    (text response payload : pystr) (uuid4 : nat -> pystr)
    (self : KnowledgeGraphConstructor) :
  unfence response = Ok payload ->
  json_loads (py_strip payload) = Raise JSONDecodeError ->
  _parse_response response = Ok (PList [], PList [])
  /\ add_text text (Ok response) uuid4 self
     = ({| entities := entities self; relations := relations self;
           texts := texts self ++ [text] |}, Ok tt)
  /\ (exists before,
        snd (get_stats self) = Ok before
        /\ snd (get_stats (fst (add_text text (Ok response) uuid4 self)))
           = Ok {| stats_entities := stats_entities before;
                   stats_relations := stats_relations before;
                   texts_processed := S (texts_processed before) |}).
Proof.
  intros Hu Hj.
  pose proof (parse_response_decode_error _ Hu Hj) as Hp.
  assert (Hadd : add_text text (Ok response) uuid4 self
     = ({| entities := entities self; relations := relations self;
           texts := texts self ++ [text] |}, Ok tt)).
  { unfold add_text, extract_entities_and_relations. simpl.
    rewrite Hp. reflexivity. }
  split; [exact Hp|]. split; [exact Hadd|].
  eexists. split; [reflexivity|]. rewrite Hadd. simpl.
  rewrite length_app, Nat.add_comm. reflexivity.
Qed.

(** *** What one call of [add_text] writes *)

Lemma dict_mem_false V (k : pystr) (d : dict V) :
  dict_mem k d = false -> dict_get k d = None.
Proof.
  unfold dict_mem. destruct (dict_get k d); [discriminate | reflexivity].
Qed.

Lemma store_entity_run (entity : SchemaOrgEntity)
    (self : KnowledgeGraphConstructor) :
  store_entity entity self
  = if dict_mem (entity_key_of entity) (entities self)
    then (self, Ok tt)
    else ({| entities := entities self ++ [(entity_key_of entity, entity)];
             relations := relations self; texts := texts self |}, Ok tt).
Proof.
  unfold store_entity. simpl.
  destruct (dict_mem (entity_key_of entity) (entities self)) eqn:E; simpl.
  - reflexivity.
  - rewrite dict_set_absent by (apply dict_mem_false; exact E). reflexivity.
Qed.

Lemma add_entity_writes (uuid : pystr) (entity_data : pyval)
    (self : KnowledgeGraphConstructor) :
  exists es,
    fst (add_entity uuid entity_data self)
    = {| entities := entities self ++ es; relations := relations self;
         texts := texts self |}
    /\ Forall own_key es.
Proof.
  unfold add_entity. simpl.
  destruct (entity_of uuid entity_data) as [entity|e]; simpl.
  - rewrite store_entity_run.
    destruct (dict_mem (entity_key_of entity) (entities self)); simpl.
    + exists []. rewrite app_nil_r, KG_eta. split; [reflexivity | constructor].
    + exists [(entity_key_of entity, entity)]. split; [reflexivity|].
      repeat constructor.
  - exists []. rewrite app_nil_r, KG_eta. split; [reflexivity | constructor].
Qed.

Lemma entity_loop_writes (uuid4 : nat -> pystr) (items : list pyval) :
  forall (i : nat) (self : KnowledgeGraphConstructor),
  exists es,
    fst (for_each_from i items (fun i entity_data =>
           add_entity (uuid4 i) entity_data) self)
    = {| entities := entities self ++ es; relations := relations self;
         texts := texts self |}
    /\ Forall own_key es.
Proof.
  induction items as [|d items IH]; intros i self; simpl.
  - exists []. rewrite app_nil_r, KG_eta. split; [reflexivity | constructor].
  - destruct (add_entity_writes (uuid4 i) d self) as (es1 & E1 & F1).
    destruct (add_entity (uuid4 i) d self) as [self1 [[]|e]]; simpl in *.
    + destruct (IH (S i) self1) as (es2 & E2 & F2).
      exists (es1 ++ es2). rewrite E2, E1. simpl. rewrite app_assoc.
      split; [reflexivity | apply Forall_app; auto].
    + exists es1; auto.
Qed.

Lemma entities_getitem_stored
    (self : KnowledgeGraphConstructor) (key : pystr) (e : SchemaOrgEntity) :
  entities_getitem self key = Ok e -> id_stored (entities self) (entity_id e).
Proof.
  unfold entities_getitem.
  destruct (dict_get key (entities self)) as [e'|] eqn:E; [|discriminate].
  intros H; injection H as ->. exists e. split; [|reflexivity].
  apply dict_get_In in E. apply (in_map snd) in E. exact E.
Qed.

Lemma add_relation_writes (rel_data : pyval)
    (self : KnowledgeGraphConstructor) :
  exists rs,
    fst (add_relation rel_data self)
    = {| entities := entities self; relations := relations self ++ rs;
         texts := texts self |}
    /\ Forall (refers_to (entities self)) rs.
Proof.
  assert (Hsame : exists rs,
    self = {| entities := entities self; relations := relations self ++ rs;
              texts := texts self |}
    /\ Forall (refers_to (entities self)) rs).
  { exists []. rewrite app_nil_r, KG_eta. split; [reflexivity | constructor]. }
  unfold add_relation, resolve. simpl.
  destruct (py_getitem rel_data (lit "subject")) as [vs|]; simpl; auto.
  destruct (re_subject vs) as [s|]; simpl; auto.
  destruct (py_getitem rel_data (lit "object")) as [vo|]; simpl; auto.
  destruct (re_subject vo) as [o|]; simpl; auto.
  destruct (_find_entity_key self s) as [sk|]; simpl; auto.
  destruct (_find_entity_key self o) as [ok|]; simpl; auto.
  destruct (negb (is_empty sk) && negb (is_empty ok)); simpl; auto.
  destruct (entities_getitem self sk) as [subj|] eqn:Es; simpl; auto.
  destruct (py_getitem rel_data (lit "predicate")) as [pred|]; simpl; auto.
  destruct (entities_getitem self ok) as [obj|] eqn:Eo; simpl; auto.
  unfold new_SchemaOrgRelation.
  destruct (validate_str pred) as [p|]; simpl; auto.
  eexists [_]. split; [reflexivity|].
  constructor; [|constructor]. split; simpl.
  - eapply entities_getitem_stored; eassumption.
  - eapply entities_getitem_stored; eassumption.
Qed.

Lemma relation_loop_writes (items : list pyval) :
  forall self : KnowledgeGraphConstructor,
  exists rs,
    fst (for_each items add_relation self)
    = {| entities := entities self; relations := relations self ++ rs;
         texts := texts self |}
    /\ Forall (refers_to (entities self)) rs.
Proof.
  induction items as [|d items IH]; intros self; simpl.
  - exists []. rewrite app_nil_r, KG_eta. split; [reflexivity | constructor].
  - destruct (add_relation_writes d self) as (rs1 & E1 & F1).
    destruct (add_relation d self) as [self1 [[]|e]]; simpl in *.
    + destruct (IH self1) as (rs2 & E2 & F2).
      exists (rs1 ++ rs2). rewrite E2, E1. simpl. rewrite app_assoc.
      split; [reflexivity|]. apply Forall_app; split; [assumption|].
      rewrite E1 in F2. exact F2.
    + exists rs1; auto.
Qed.

(** A call of [add_text] only appends: the text to the log, entities
    filed under their own keys, relations between stored entities. *)
Lemma add_text_writes (text : pystr) (reply : result pystr)
    (uuid4 : nat -> pystr) (self : KnowledgeGraphConstructor) :
  exists es rs,
    fst (add_text text reply uuid4 self)
    = {| entities := entities self ++ es; relations := relations self ++ rs;
         texts := texts self ++ [text] |}
    /\ Forall own_key es
    /\ Forall (refers_to (entities self ++ es)) rs.
Proof.
  assert (Hnone : exists es rs,
    {| entities := entities self; relations := relations self;
       texts := texts self ++ [text] |}
    = {| entities := entities self ++ es; relations := relations self ++ rs;
         texts := texts self ++ [text] |}
    /\ Forall own_key es /\ Forall (refers_to (entities self ++ es)) rs).
  { exists [], []. rewrite !app_nil_r. repeat split; constructor. }
  unfold add_text. simpl.
  destruct (extract_entities_and_relations reply) as [[ents rels]|];
    simpl; auto.
  destruct (py_iter ents) as [entity_items|]; simpl; auto.
  match goal with
  | |- context [for_each_from 0 entity_items ?body ?s0] =>
      destruct (entity_loop_writes uuid4 entity_items 0 s0) as (es & E1 & F1);
      destruct (for_each_from 0 entity_items body s0) as [self1 [[]|e]]
  end; simpl in *.
  - destruct (py_iter rels) as [relation_items|]; simpl.
    + destruct (relation_loop_writes relation_items self1) as (rs & E2 & F2).
      destruct (for_each relation_items add_relation self1) as [self2 out].
      simpl in *. exists es, rs. rewrite E2, E1. simpl.
      rewrite E1 in F2. simpl in F2. auto.
    + exists es, []. rewrite E1, app_nil_r. repeat split; auto.
  - exists es, []. rewrite E1, app_nil_r. repeat split; auto.
Qed.

End Ingestion.

Section Invariants.

Context {RT : PyRuntime}.

Lemma id_stored_app (es es' : dict SchemaOrgEntity) (id : pystr) :
  id_stored es id -> id_stored (es ++ es') id.
Proof.
  intros (e & Hin & Hid). exists e. split; [|exact Hid].
  unfold dict_values in *. rewrite map_app. apply in_or_app; auto.
Qed.

Lemma refers_to_app (es es' : dict SchemaOrgEntity) (r : SchemaOrgRelation) :
  refers_to es r -> refers_to (es ++ es') r.
Proof. intros [Hs Ho]. split; apply id_stored_app; assumption. Qed.

(** Every entry of a reachable graph is filed under its dedup key, and
    every relation joins two stored entities. *)
Lemma reachable_invariant (self : KnowledgeGraphConstructor) :
  reachable self ->
  Forall own_key (entities self)
  /\ Forall (refers_to (entities self)) (relations self).
Proof.
  induction 1 as [|self text reply uuid4 _ [IHk IHr]].
  - split; constructor.
  - destruct (add_text_writes text reply uuid4 self)
      as (es & rs & -> & Fk & Fr).
    simpl. split.
    + apply Forall_app; auto.
    + apply Forall_app; split; [|exact Fr].
      eapply Forall_impl; [|exact IHr]. intros r. apply refers_to_app.
Qed.

(** C1. A pass of the relation loop of [add_text] leaves the Entity
    Store as it is and appends at most relations whose [subject_id] and
    [object_id] are identifiers of entities of that store; a candidate
    whose subject or object name does not resolve is dropped without an
    error and nothing is stored. Over a whole call of [add_text], the
    relations appended all join entities of the resulting store. *)
Theorem stored_relations_reference_entities
    (rel_data : pyval) (text : pystr) (reply : result pystr)
    (uuid4 : nat -> pystr) (self : KnowledgeGraphConstructor) :
  (exists rs,
     fst (add_relation rel_data self)
     = {| entities := entities self; relations := relations self ++ rs;
          texts := texts self |}
     /\ Forall (refers_to (entities self)) rs)
  /\ (forall s o,
        py_getitem rel_data (lit "subject") = Ok (PStr s) ->
        py_getitem rel_data (lit "object") = Ok (PStr o) ->
        _find_entity_key self s = None \/ _find_entity_key self o = None ->
        add_relation rel_data self = (self, Ok tt))
  /\ (exists rs,
        relations (fst (add_text text reply uuid4 self)) = relations self ++ rs
        /\ Forall
             (refers_to (entities (fst (add_text text reply uuid4 self)))) rs).
Proof.
  split; [apply add_relation_writes|]. split.
  - intros s o Hs Ho Hnone. unfold add_relation, resolve. simpl.
    rewrite Hs, Ho. simpl.
    destruct Hnone as [-> | ->]; [reflexivity|].
    destruct (_find_entity_key self s); reflexivity.
  - destruct (add_text_writes text reply uuid4 self) as (es & rs & -> & _ & Fr).
    exists rs. split; [reflexivity | exact Fr].
Qed.

(** C2. In a reachable graph, ingesting an entity whose type and
    canonicalized name are those of a stored entity changes nothing: the
    loop body returns with the graph as it was, so the stored entity
    keeps its identifier and its properties and those of the duplicate
    are dropped. The names are compared after canonicalization, so a
    different casing or spacing of the name meets the same entity. *)
Theorem duplicate_entity_is_discarded
    (uuid : pystr) (entity_data : pyval) (entity stored : SchemaOrgEntity)
    (self : KnowledgeGraphConstructor) :
  reachable self ->
  In stored (dict_values (entities self)) ->
  entity_of uuid entity_data = Ok entity ->
  schema_type entity = schema_type stored ->
  _sanitize_id (name entity) = _sanitize_id (name stored) ->
  add_entity uuid entity_data self = (self, Ok tt).
Proof.
  intros Hreach Hin Hent Htype Hname.
  destruct (reachable_invariant Hreach) as [Hkeys _].
  unfold dict_values in Hin. apply in_map_iff in Hin.
  destruct Hin as ([k e] & Hsnd & Hin). simpl in Hsnd. subst e.
  rewrite Forall_forall in Hkeys. pose proof (Hkeys _ Hin) as Hk.
  unfold own_key in Hk. simpl in Hk.
  assert (Hkey : entity_key_of entity = k).
  { rewrite Hk. unfold entity_key_of. rewrite Htype, Hname. reflexivity. }
  unfold add_entity. simpl. rewrite Hent. simpl.
  rewrite store_entity_run, Hkey, (In_dict_mem _ _ _ Hin). reflexivity.
Qed.

End Invariants.

(** ** The exporters *)

Lemma uri_fold_get (l : list SchemaOrgEntity) :
  forall (m : dict pystr) (id : pystr),
    dict_get id
      (fold_left
         (fun m e => dict_set (entity_id e) (_build_uri (entity_id e)) m) l m)
    = if existsb (has_id id) l then Some (_build_uri id) else dict_get id m.
Proof.
  induction l as [|e l IH]; intros m id; simpl; [reflexivity|].
  rewrite IH. unfold has_id at 2.
  destruct (str_eqb_spec (entity_id e) id) as [->|Hne]; simpl.
  - rewrite dict_get_set_same. destruct (existsb (has_id id) l); reflexivity.
  - rewrite dict_get_set_other by congruence. reflexivity.
Qed.

Lemma uri_map_get (self : KnowledgeGraphConstructor) (id : pystr) :
  dict_get id (entity_uri_map self)
  = if existsb (has_id id) (dict_values (entities self))
    then Some (_build_uri id) else None.
Proof. unfold entity_uri_map. rewrite uri_fold_get. reflexivity. Qed.

Lemma id_stored_existsb (es : dict SchemaOrgEntity) (id : pystr) :
  id_stored es id <-> existsb (has_id id) (dict_values es) = true.
Proof.
  unfold id_stored, has_id. rewrite existsb_exists. split.
  - intros (e & Hin & <-). exists e. split; [exact Hin | apply str_eqb_refl].
  - intros (e & Hin & He). exists e. split; [exact Hin|].
    apply str_eqb_eq, He.
Qed.

Lemma build_uri_truthy (id : pystr) : truthy (Some (_build_uri id)) = true.
Proof. reflexivity. Qed.

Lemma jsonld_guard_stored
    (self : KnowledgeGraphConstructor) (r : SchemaOrgRelation) :
  jsonld_guard (entity_uri_map self) r = true <-> refers_to (entities self) r.
Proof.
  unfold jsonld_guard, refers_to. rewrite !uri_map_get, !id_stored_existsb.
  destruct (existsb (has_id (subject_id r)) (dict_values (entities self)));
    destruct (existsb (has_id (object_id r)) (dict_values (entities self)));
    simpl; intuition discriminate.
Qed.

Lemma entity_with_id_stored (self : KnowledgeGraphConstructor) (id : pystr) :
  id_stored (entities self) id ->
  exists e, entity_with_id self id = Some e /\ entity_id e = id.
Proof.
  intros (e & Hin & He). unfold entity_with_id.
  destruct (find (fun e0 => str_eqb (entity_id e0) id)
              (dict_values (entities self))) as [e'|] eqn:E.
  - exists e'. split; [reflexivity|]. apply find_some in E.
    apply str_eqb_eq, E.
  - apply (find_none _ _ E) in Hin. rewrite He, str_eqb_refl in Hin.
    discriminate.
Qed.



Section Consumers.

Context {RT : PyRuntime}.


(** C9. [to_jsonld], [to_rdf] and [query] leave the graph as they find
    it, whether they return or raise: entities with all their fields,
    relations and the text log are those of the graph they ran on. *)
Theorem exports_and_query_frame
    (self : KnowledgeGraphConstructor) (question : pystr)
    (reply : result pystr) :
  fst (to_jsonld self) = self
  /\ fst (to_rdf self) = self
  /\ fst (query question reply self) = self.
Proof.
  split; [|split].
  - unfold to_jsonld. simpl. destruct (jsonld_graph self); reflexivity.
  - reflexivity.
  - unfold query, generate. simpl. destruct reply; reflexivity.
Qed.

End Consumers.

(** *** The linked-data export returns, one node per entity *)

Lemma dict_mem_set V (k k' : pystr) (v : V) (d : dict V) :
  dict_mem k d = true -> dict_mem k (dict_set k' v d) = true.
Proof.
  unfold dict_mem. destruct (str_eqb_spec k k') as [->|Hne].
  - rewrite dict_get_set_same; reflexivity.
  - rewrite dict_get_set_other by assumption. auto.
Qed.

Lemma dict_mem_update V (k : pystr) (extra d : dict V) :
  dict_mem k d = true -> dict_mem k (dict_update d extra) = true.
Proof.
  unfold dict_update. revert d.
  induction extra as [|[k' v] extra IH]; intros d H; simpl; [exact H|].
  apply IH, dict_mem_set, H.
Qed.

Lemma make_nodes_returns
    (self : KnowledgeGraphConstructor) (es : list SchemaOrgEntity) :
  incl es (dict_values (entities self)) ->
  exists nodes,
    make_nodes (entity_uri_map self) es = Ok nodes
    /\ List.length nodes = List.length es
    /\ Forall (fun n => dict_mem AT_ID n = true) nodes.
Proof.
  induction es as [|e es IH]; intros Hincl; simpl.
  - exists []. repeat split; constructor.
  - destruct IH as (nodes & -> & Hlen & Hids).
    { intros x Hx. apply Hincl. right; exact Hx. }
    unfold make_node. rewrite uri_map_get.
    assert (Hin : existsb (has_id (entity_id e)) (dict_values (entities self))
                  = true).
    { apply id_stored_existsb. exists e. split; [|reflexivity].
      apply Hincl. left; reflexivity. }
    rewrite Hin. simpl. eexists. split; [reflexivity|]. split.
    + simpl. rewrite Hlen. reflexivity.
    + constructor; [|exact Hids]. apply dict_mem_update. reflexivity.
Qed.

Lemma attach_returns (subject_uri pred : pystr) (ref : pyval)
    (graph : list node) :
  Forall (fun n => dict_mem AT_ID n = true) graph ->
  exists graph',
    attach subject_uri pred ref graph = Ok graph'
    /\ List.length graph' = List.length graph
    /\ Forall (fun n => dict_mem AT_ID n = true) graph'.
Proof.
  induction 1 as [|n graph Hn Hg IH]; simpl.
  - exists []. repeat split; constructor.
  - unfold dict_mem in Hn. destruct (dict_get AT_ID n) as [id|] eqn:E;
      [|discriminate].
    destruct (py_eq_str id subject_uri).
    + eexists. split; [reflexivity|]. split; [reflexivity|].
      constructor; [|exact Hg]. apply dict_mem_set. unfold dict_mem.
      rewrite E. reflexivity.
    + destruct IH as (graph' & -> & Hlen & Hids). simpl.
      eexists. split; [reflexivity|]. split.
      * simpl. rewrite Hlen. reflexivity.
      * constructor; [|exact Hids]. unfold dict_mem. rewrite E. reflexivity.
Qed.

Lemma attach_relations_returns (uri_map : dict pystr)
    (rs : list SchemaOrgRelation) :
  forall graph : list node,
    Forall (fun n => dict_mem AT_ID n = true) graph ->
    exists graph',
      attach_relations uri_map graph rs = Ok graph'
      /\ List.length graph' = List.length graph.
Proof.
  induction rs as [|r rs IH]; intros graph Hg; simpl.
  - exists graph. split; reflexivity.
  - assert (Hstep : exists graph1,
              attach_relation uri_map graph r = Ok graph1
              /\ List.length graph1 = List.length graph
              /\ Forall (fun n => dict_mem AT_ID n = true) graph1).
    { unfold attach_relation.
      destruct (dict_get (subject_id r) uri_map) as [su|];
        [|exists graph; auto].
      destruct (dict_get (object_id r) uri_map) as [ou|];
        [|exists graph; auto].
      destruct (jsonld_guard uri_map r); [|exists graph; auto].
      apply attach_returns, Hg. }
    destruct Hstep as (graph1 & -> & Hlen1 & Hg1).
    destruct (IH graph1 Hg1) as (graph' & E & Hlen). simpl.
    exists graph'. split; [exact E|]. congruence.
Qed.

Lemma jsonld_graph_returns (self : KnowledgeGraphConstructor) :
  exists graph,
    jsonld_graph self = Ok graph
    /\ List.length graph = List.length (entities self).
Proof.
  unfold jsonld_graph.
  destruct (make_nodes_returns self (es := dict_values (entities self)))
    as (nodes & -> & Hlen & Hids); [apply incl_refl|].
  destruct (attach_relations_returns (entity_uri_map self) (relations self)
              Hids) as (graph & E & Hlen'). simpl. rewrite E.
  exists graph. split; [reflexivity|].
  rewrite Hlen', Hlen. unfold dict_values. apply length_map.
Qed.

(** *** Lines of the triple-text export *)

Lemma lines_of_single (l : pystr) : single_line l = true -> lines_of l = [l].
Proof.
  induction l as [|c l IH]; simpl; [reflexivity|].
  rewrite andb_true_iff, negb_true_iff. intros [Hc Hl].
  rewrite Hc, (IH Hl). reflexivity.
Qed.

Lemma lines_of_app (l rest : pystr) :
  single_line l = true -> lines_of (l ++ LF :: rest) = l :: lines_of rest.
Proof.
  induction l as [|c l IH]; simpl.
  - intros _. reflexivity.
  - rewrite andb_true_iff, negb_true_iff. intros [Hc Hl].
    rewrite Hc, (IH Hl). reflexivity.
Qed.

Lemma lines_of_join (ls : list pystr) :
  ls <> [] -> forallb single_line ls = true ->
  lines_of (py_join [LF] ls) = ls.
Proof.
  induction ls as [|p ls IH]; [congruence|]. intros _. simpl.
  rewrite andb_true_iff. intros [Hp Hls].
  destruct ls as [|q ls].
  - apply lines_of_single, Hp.
  - change ([LF] ++ py_join [LF] (q :: ls)) with (LF :: py_join [LF] (q :: ls)).
    rewrite lines_of_app by exact Hp.
    rewrite IH; [reflexivity | discriminate | exact Hls].
Qed.

Lemma single_line_app (a b : pystr) :
  single_line (a ++ b) = single_line a && single_line b.
Proof. apply forallb_app. Qed.

Lemma single_line_sanitize (text : pystr) :
  single_line (_sanitize_id text) = true.
Proof.
  unfold single_line. apply forallb_forall. intros c Hc.
  pose proof (sanitize_chars text) as H. rewrite Forall_forall in H.
  apply H, id_char_bounds in Hc. unfold LF.
  destruct (N.eqb_spec c 10); [lia | reflexivity].
Qed.

Lemma rdf_entity_lines_single (e : SchemaOrgEntity) :
  single_line (schema_type e) && single_line (name e) = true ->
  forallb single_line (rdf_entity_lines e) = true.
Proof.
  rewrite andb_true_iff. intros [Ht Hn].
  unfold rdf_entity_lines. cbv zeta. cbn [forallb].
  rewrite !single_line_app, single_line_sanitize, Ht, Hn. reflexivity.
Qed.

Lemma rdf_relation_line_single (r : SchemaOrgRelation) :
  single_line (predicate r) = true -> single_line (rdf_relation_line r) = true.
Proof.
  intros Hp. unfold rdf_relation_line. cbv zeta.
  rewrite !single_line_app, !single_line_sanitize, Hp. reflexivity.
Qed.

Lemma rdf_lines_single (self : KnowledgeGraphConstructor) :
  single_line_graph self = true -> forallb single_line (rdf_lines self) = true.
Proof.
  unfold single_line_graph, rdf_lines. rewrite andb_true_iff.
  intros [He Hr]. rewrite !forallb_app, !andb_true_iff.
  split; [reflexivity|]. split.
  - induction (dict_values (entities self)) as [|e es IH]; [reflexivity|].
    cbn [forallb] in He. rewrite andb_true_iff in He. destruct He as [He1 He].
    cbn [flat_map]. rewrite forallb_app, (rdf_entity_lines_single _ He1).
    apply IH, He.
  - induction (relations self) as [|r rs IH]; [reflexivity|].
    cbn [forallb] in Hr. rewrite andb_true_iff in Hr. destruct Hr as [Hp Hr].
    cbn [map forallb]. rewrite (rdf_relation_line_single _ Hp). apply IH, Hr.
Qed.

Lemma rdf_body_count (self : KnowledgeGraphConstructor) :
  List.length
    (filter (fun l => negb (is_empty l)) (skipn 2 (rdf_lines self)))
  = (2 * List.length (entities self) + List.length (relations self))%nat.
Proof.
  unfold rdf_lines. simpl. rewrite filter_app, length_app.
  replace (List.length (entities self))
    with (List.length (dict_values (entities self)))
    by (unfold dict_values; apply length_map).
  f_equal.
  - induction (dict_values (entities self)) as [|e es IH]; [reflexivity|].
    simpl. rewrite IH. lia.
  - induction (relations self) as [|r rs IH]; [reflexivity|].
    simpl. rewrite IH. reflexivity.
Qed.

(** C8, as the code has it. The array under ["@graph"] of the
    linked-data export has one node per stored entity, for every graph.
    When no entity type, entity name or relation predicate contains a
    line feed, the triple-text export has, after its two header lines,
    [2 * |entities| + |relations|] non-empty lines. *)
Theorem export_counts (self : KnowledgeGraphConstructor) :
  (exists doc,
     snd (to_jsonld self) = Ok doc
     /\ graph_length doc = Some (List.length (entities self)))
  /\ (single_line_graph self = true ->
      exists text,
        snd (to_rdf self) = Ok text
        /\ List.length (body_lines text)
           = (2 * List.length (entities self)
              + List.length (relations self))%nat).
Proof.
  split.
  - destruct (jsonld_graph_returns self) as (graph & E & Hlen).
    unfold to_jsonld. simpl. rewrite E. simpl.
    eexists. split; [reflexivity|]. simpl.
    f_equal. rewrite length_map. exact Hlen.
  - intros Hsl. eexists. split; [reflexivity|].
    unfold body_lines. rewrite lines_of_join.
    + apply rdf_body_count.
    + discriminate.
    + apply rdf_lines_single, Hsl.
Qed.

(** C8 fails as stated: a name holding a line feed is written as it is,
    so one entity and no relation give three non-empty lines, not two. *)
Lemma multiline_name_line_count :
  exists text,
    snd (to_rdf ada_graph) = Ok text
    /\ List.length (body_lines text) = 3%nat
    /\ (2 * List.length (entities ada_graph)
        + List.length (relations ada_graph) = 2)%nat.
Proof. eexists. split; [reflexivity|]. split; vm_compute; reflexivity. Qed.

(** *** References written by the linked-data export *)


Lemma dict_mem_keys V (k : pystr) (d : dict V) :
  dict_mem k d = false -> ~ In k (dict_keys d).
Proof.
  unfold dict_mem, dict_keys. induction d as [|[k' v] d IH]; simpl; [tauto|].
  destruct (str_eqb_spec k' k) as [->|Hne]; [discriminate|].
  intros H [E|Hin]; [congruence | exact (IH H Hin)].
Qed.

Lemma dict_set_nodup V (k : pystr) (v : V) (d : dict V) :
  NoDup (dict_keys d) -> NoDup (dict_keys (dict_set k v d)).
Proof.
  intros Hnd. rewrite dict_keys_set.
  destruct (dict_mem k d) eqn:E; [exact Hnd|].
  apply NoDup_app; [exact Hnd | repeat constructor; simpl; tauto |].
  intros x Hx [<-|[]]. exact (dict_mem_keys _ _ E Hx).
Qed.

Lemma dict_update_nodup V (extra d : dict V) :
  NoDup (dict_keys d) -> NoDup (dict_keys (dict_update d extra)).
Proof.
  unfold dict_update. revert d.
  induction extra as [|[k v] extra IH]; intros d H; simpl; [exact H|].
  apply IH, dict_set_nodup, H.
Qed.

Lemma dict_get_update_other V (k : pystr) (extra d : dict V) :
  dict_mem k extra = false -> dict_get k (dict_update d extra) = dict_get k d.
Proof.
  unfold dict_update, dict_mem. revert d.
  induction extra as [|[k' v] extra IH]; intros d; simpl; [reflexivity|].
  destruct (str_eqb_spec k' k) as [->|Hne]; [discriminate|].
  intros H. rewrite (IH _ H). apply dict_get_set_other. congruence.
Qed.

Lemma NoDup_map_eq A B (f : A -> B) (l : list A) (x y : A) :
  NoDup (map f l) -> In x l -> In y l -> f x = f y -> x = y.
Proof.
  induction l as [|a l IH]; simpl; [tauto|].
  intros Hnd. inversion Hnd as [|? ? Hnotin Hnd']; subst.
  intros [->|Hx] [->|Hy] E; auto.
  - exfalso. apply Hnotin. rewrite E. apply in_map, Hy.
  - exfalso. apply Hnotin. rewrite <- E. apply in_map, Hx.
Qed.

Lemma make_nodes_of
    (self : KnowledgeGraphConstructor) (es : list SchemaOrgEntity) :
  incl es (dict_values (entities self)) ->
  Forall (fun e => dict_mem AT_ID (properties e) = false) es ->
  exists nodes,
    make_nodes (entity_uri_map self) es = Ok nodes /\ Forall2 node_of es nodes.
Proof.
  induction es as [|e es IH]; intros Hincl Hfree; simpl.
  - exists []. split; [reflexivity | constructor].
  - inversion Hfree as [|? ? He Hes]; subst.
    destruct IH as (nodes & -> & Hnodes); [|exact Hes|].
    { intros x Hx. apply Hincl. right; exact Hx. }
    unfold make_node. rewrite uri_map_get.
    assert (Hin : existsb (has_id (entity_id e)) (dict_values (entities self))
                  = true).
    { apply id_stored_existsb. exists e. split; [|reflexivity].
      apply Hincl. left; reflexivity. }
    rewrite Hin. simpl. eexists. split; [reflexivity|].
    constructor; [|exact Hnodes]. split.
    + rewrite dict_get_update_other by exact He. reflexivity.
    + apply dict_update_nodup. unfold dict_keys. simpl.
      repeat constructor; simpl; intuition discriminate.
Qed.

(** One run of the inner loop, seen from the node at position [i]. *)
Lemma attach_at (s p : pystr) (ref : pyval) (es : list SchemaOrgEntity) :
  p <> AT_ID ->
  forall (graph : list node) (i : nat) (e : SchemaOrgEntity) (n : node),
    Forall2 node_of es graph ->
    NoDup (map uri_of es) ->
    nth_error es i = Some e ->
    nth_error graph i = Some n ->
    exists graph',
      attach s p ref graph = Ok graph'
      /\ Forall2 node_of es graph'
      /\ nth_error graph' i
         = Some (if str_eqb (uri_of e) s then dict_set p ref n else n).
Proof.
  intros Hp graph i e n Hnodes. revert i e n.
  induction Hnodes as [|e0 n0 es graph [Hid Hnd] Hrest IH];
    intros i e n Huniq He Hn.
  - destruct i; discriminate.
  - cbn [attach]. rewrite Hid. cbn [py_eq_str].
    inversion Huniq as [|? ? Hnotin Huniq']; subst.
    destruct (str_eqb_spec (uri_of e0) s) as [Hs|Hs].
    + eexists. split; [reflexivity|]. split.
      * constructor; [|exact Hrest]. split.
        -- rewrite dict_get_set_other by congruence. exact Hid.
        -- apply dict_set_nodup, Hnd.
      * destruct i as [|i]; cbn [nth_error] in *.
        -- injection He as <-. injection Hn as <-.
           rewrite (proj2 (str_eqb_eq _ _) Hs). reflexivity.
        -- rewrite Hn. f_equal.
           destruct (str_eqb_spec (uri_of e) s) as [Hs'|_]; [|reflexivity].
           exfalso. apply Hnotin. rewrite Hs, <- Hs'.
           apply in_map. eapply nth_error_In, He.
    + destruct i as [|i]; cbn [nth_error] in *.
      * injection He as <-. injection Hn as <-.
        rewrite (proj2 (str_eqb_neq _ _) Hs).
        destruct es as [|e1 es].
        -- inversion Hrest; subst. eexists. split; [reflexivity|].
           split; [repeat constructor; assumption | reflexivity].
        -- inversion Hrest as [|? n1 ? graph1 Hn1 Hrest1]; subst.
           destruct (IH 0%nat e1 n1 Huniq' eq_refl eq_refl)
             as (graph' & -> & Hnodes' & _).
           eexists. split; [reflexivity|].
           split; [constructor; [split|]; assumption | reflexivity].
      * destruct (IH i e n Huniq' He Hn) as (graph' & -> & Hnodes' & Hi).
        eexists. split; [reflexivity|].
        split; [constructor; [split|]; assumption | exact Hi].
Qed.

Lemma Forall2_nth_error_l A B (R : A -> B -> Prop) (l : list A) (l' : list B) :
  Forall2 R l l' ->
  forall (i : nat) (a : A),
    nth_error l i = Some a -> exists b, nth_error l' i = Some b /\ R a b.
Proof.
  induction 1 as [|x y l l' Hxy _ IH]; intros [|i] a; simpl; try discriminate.
  - intros E; injection E as <-. exists y; auto.
  - apply IH.
Qed.

Lemma jsonld_guard_eq
    (self : KnowledgeGraphConstructor) (r : SchemaOrgRelation) :
  jsonld_guard (entity_uri_map self) r
  = existsb (has_id (subject_id r)) (dict_values (entities self))
    && existsb (has_id (object_id r)) (dict_values (entities self)).
Proof.
  unfold jsonld_guard. rewrite !uri_map_get.
  destruct (existsb (has_id (subject_id r)) (dict_values (entities self)));
    destruct (existsb (has_id (object_id r)) (dict_values (entities self)));
    reflexivity.
Qed.

(** One pass of the relation loop, seen from the node at position [i]. *)
Lemma attach_relation_at
    (self : KnowledgeGraphConstructor) (r : SchemaOrgRelation)
    (graph : list node) (i : nat) (e : SchemaOrgEntity) (n : node) :
  predicate r <> AT_ID ->
  Forall2 node_of (dict_values (entities self)) graph ->
  distinct_uris self ->
  nth_error (dict_values (entities self)) i = Some e ->
  nth_error graph i = Some n ->
  exists graph',
    attach_relation (entity_uri_map self) graph r = Ok graph'
    /\ Forall2 node_of (dict_values (entities self)) graph'
    /\ nth_error graph' i
       = Some (if jsonld_guard (entity_uri_map self) r
                  && str_eqb (uri_of e) (_build_uri (subject_id r))
               then dict_set (predicate r)
                      (reference_to (_build_uri (object_id r))) n
               else n).
Proof.
  intros Hp Hnodes Huniq He Hn.
  unfold attach_relation. rewrite jsonld_guard_eq, !uri_map_get.
  destruct (existsb (has_id (subject_id r)) (dict_values (entities self)));
    [|exists graph; auto].
  destruct (existsb (has_id (object_id r)) (dict_values (entities self)));
    [|exists graph; auto].
  cbn [andb].
  eapply attach_at; eassumption.
Qed.

Lemma attach_relations_app (uri_map : dict pystr)
    (rs1 rs2 : list SchemaOrgRelation) :
  forall graph : list node,
    attach_relations uri_map graph (rs1 ++ rs2)
    = match attach_relations uri_map graph rs1 with
      | Ok graph1 => attach_relations uri_map graph1 rs2
      | Raise e => Raise e
      end.
Proof.
  induction rs1 as [|r rs1 IH]; intros graph; simpl; [reflexivity|].
  destruct (attach_relation uri_map graph r); [apply IH | reflexivity].
Qed.

(** The relation loop keeps every node under the URI of its entity. *)
Lemma attach_relations_nodes
    (self : KnowledgeGraphConstructor) (rs : list SchemaOrgRelation)
    (i : nat) (e : SchemaOrgEntity) :
  distinct_uris self ->
  nth_error (dict_values (entities self)) i = Some e ->
  Forall (fun r => predicate r <> AT_ID) rs ->
  forall graph : list node,
    Forall2 node_of (dict_values (entities self)) graph ->
    exists graph',
      attach_relations (entity_uri_map self) graph rs = Ok graph'
      /\ Forall2 node_of (dict_values (entities self)) graph'.
Proof.
  intros Huniq He. induction 1 as [|r rs Hp _ IH]; intros graph Hnodes.
  - exists graph. split; [reflexivity | exact Hnodes].
  - destruct (Forall2_nth_error_l Hnodes i He) as (n & Hn & _).
    destruct (attach_relation_at r i Hp Hnodes Huniq He Hn)
      as (graph1 & E1 & Hnodes1 & _).
    cbn [attach_relations]. rewrite E1. apply IH, Hnodes1.
Qed.

(** Later relations with another subject or another predicate leave the
    value under [p] in the subject's node as it is. *)
Lemma attach_relations_keep
    (self : KnowledgeGraphConstructor) (subject : SchemaOrgEntity)
    (i : nat) (sid p : pystr) (v : pyval) (rs : list SchemaOrgRelation) :
  distinct_uris self ->
  nth_error (dict_values (entities self)) i = Some subject ->
  entity_id subject = sid ->
  Forall (fun r => predicate r <> AT_ID) rs ->
  Forall (fun r => ~ (subject_id r = sid /\ predicate r = p)) rs ->
  forall (graph : list node) (n : node),
    Forall2 node_of (dict_values (entities self)) graph ->
    nth_error graph i = Some n ->
    dict_get p n = Some v ->
    exists graph' n',
      attach_relations (entity_uri_map self) graph rs = Ok graph'
      /\ nth_error graph' i = Some n'
      /\ dict_get p n' = Some v
      /\ NoDup (dict_keys n').
Proof.
  intros Huniq He Hsid Hpreds Hlater. revert Hlater.
  induction Hpreds as [|r rs Hp _ IH]; intros Hlater graph n Hnodes Hn Hv.
  - exists graph, n. split; [reflexivity|]. split; [exact Hn|].
    split; [exact Hv|].
    destruct (Forall2_nth_error_l Hnodes i He) as (n' & Hn' & _ & Hnd).
    congruence.
  - inversion Hlater as [|? ? Hr Hlater']; subst.
    destruct (attach_relation_at r i Hp Hnodes Huniq He Hn)
      as (graph1 & E1 & Hnodes1 & Hn1).
    match type of Hn1 with _ = Some ?x => set (n1 := x) in Hn1 end.
    assert (Hv1 : dict_get p n1 = Some v).
    { subst n1.
      destruct (jsonld_guard (entity_uri_map self) r) eqn:Hg; [|exact Hv].
      destruct (str_eqb_spec (uri_of subject) (_build_uri (subject_id r)))
        as [Hu|_]; [|exact Hv].
      cbn [andb]. rewrite dict_get_set_other; [exact Hv|].
      intros Hpred. apply Hr. split; [|symmetry; exact Hpred].
      apply jsonld_guard_stored in Hg. destruct Hg as [(e' & Hin' & Hid') _].
      assert (subject = e').
      { apply (@NoDup_map_eq _ _ uri_of (dict_values (entities self))); auto.
        - eapply nth_error_In, He.
        - unfold uri_of. rewrite Hid'. exact Hu. }
      subst e'. exact (eq_sym Hid'). }
    cbn [attach_relations]. rewrite E1.
    exact (IH Hlater' graph1 n1 Hnodes1 Hn1 Hv1).
Qed.

Lemma at_id_free_parts (self : KnowledgeGraphConstructor) :
  at_id_free self = true ->
  Forall (fun e => dict_mem AT_ID (properties e) = false)
    (dict_values (entities self))
  /\ Forall (fun r => predicate r <> AT_ID) (relations self).
Proof.
  unfold at_id_free. rewrite andb_true_iff, !forallb_forall, !Forall_forall.
  intros [He Hr]. split.
  - intros e Hin. apply negb_true_iff, He, Hin.
  - intros r Hin. apply str_eqb_neq, negb_true_iff, Hr, Hin.
Qed.

(** C7, as the code has it. In a graph where ["@id"] is neither a
    property name nor a predicate and the entities have pairwise distinct
    URIs, the node exported for the subject of a relation holds, under
    the predicate, exactly the reference to the object of the latest
    stored relation with that subject and that predicate. *)
Theorem last_write_wins_without_at_id (self : KnowledgeGraphConstructor) :
  at_id_free self = true ->
  distinct_uris self ->
  last_reference_exported self.
Proof.
  intros Hfree Huniq es1 es2 subject before after r Hes Hrs Hsid Hobj Hlater.
  destruct (at_id_free_parts self Hfree) as [Hprops Hpreds].
  rewrite Hrs in Hpreds. apply Forall_app in Hpreds.
  destruct Hpreds as [Hbefore Hpreds].
  inversion Hpreds as [|? ? Hp Hafter]; subst.
  assert (He : nth_error (dict_values (entities self)) (List.length es1)
               = Some subject).
  { rewrite Hes, nth_error_app2, Nat.sub_diag by lia. reflexivity. }
  destruct (make_nodes_of self (es := dict_values (entities self)))
    as (nodes & Enodes & Hnodes); [apply incl_refl | exact Hprops |].
  destruct (@attach_relations_nodes self before (List.length es1) subject
              Huniq He Hbefore nodes Hnodes) as (graph1 & E1 & Hnodes1).
  destruct (Forall2_nth_error_l Hnodes1 (List.length es1) He) as (n1 & Hn1 & _).
  destruct (attach_relation_at r (List.length es1) Hp Hnodes1 Huniq He Hn1)
    as (graph2 & E2 & Hnodes2 & Hn2).
  assert (Hguard : jsonld_guard (entity_uri_map self) r = true).
  { apply jsonld_guard_stored. split; [|exact Hobj].
    exists subject. split; [|exact Hsid]. eapply nth_error_In, He. }
  assert (Huri : str_eqb (uri_of subject) (_build_uri (subject_id r)) = true).
  { apply str_eqb_eq. unfold uri_of. rewrite Hsid. reflexivity. }
  rewrite Hguard, Huri in Hn2. cbn [andb] in Hn2.
  destruct (@attach_relations_keep self subject (List.length es1)
              (subject_id r) (predicate r)
              (reference_to (_build_uri (object_id r))) after
              Huniq He Hsid Hafter Hlater graph2 _ Hnodes2 Hn2)
    as (graph3 & n3 & E3 & Hn3 & Hv3 & Hnd3).
  { apply dict_get_set_same. }
  exists graph3, n3. split; [|auto].
  unfold jsonld_graph. rewrite Enodes, Hrs. cbn [bind Monad_result].
  rewrite attach_relations_app, E1. cbn [attach_relations]. rewrite E2.
  exact E3.
Qed.

(** C7 fails as stated: with ["@id"] for predicate, the first reference
    replaces the identifier of Alice's node, the second relation finds no
    node to write to, and the node keeps the reference to Google although
    the relation to Initech is the later one. *)
Lemma at_id_predicate_keeps_first_reference :
  ~ last_reference_exported at_id_graph.
Proof.
  intros H.
  destruct (dict_values (entities at_id_graph)) as [|subject es2] eqn:Ees;
    [vm_compute in Ees; discriminate|].
  destruct (relations at_id_graph) as [|r1 [|r2 [|r3 rs]]] eqn:Ers;
    try (vm_compute in Ers; discriminate).
  pose proof Ees as Ees'. vm_compute in Ees'. injection Ees' as <- <-.
  pose proof Ers as Ers'. vm_compute in Ers'. injection Ers' as <- <-.
  destruct (H [] _ _ [_] [] _ Ees Ers) as (graph & n & E & Hn & Hv & _).
  - reflexivity.
  - eexists. split; [rewrite Ees; right; right; left; reflexivity|].
    reflexivity.
  - constructor.
  - vm_compute in E. injection E as <-.
    vm_compute in Hn. injection Hn as <-.
    vm_compute in Hv. discriminate.
Qed.

(** ** Runs on the reference runtime *)

(** C3 does not hold of the code. [_parse_response] catches
    [JSONDecodeError] only: the response [[]] is valid JSON, decodes to a
    list, and the call of [get] on it raises [AttributeError] out of
    [add_text], after the text has been logged. A record without [name]
    raises [KeyError] after the records before it have been stored, and
    so does a relation record without [predicate] whose two names
    resolve. *)
Theorem ill_shaped_responses_raise :
  @add_text reference_runtime ALICE_TEXT (Ok ARRAY_RESPONSE) ref_uuid4 empty_KG
  = ({| entities := []; relations := []; texts := [ALICE_TEXT] |},
     Raise AttributeError)
  /\ (exists alice,
        @add_text reference_runtime ALICE_TEXT (Ok NAMELESS_RESPONSE) ref_uuid4
          empty_KG
        = ({| entities := [(lit "Person:alice", alice)]; relations := [];
              texts := [ALICE_TEXT] |},
           Raise KeyError))
  /\ @add_text reference_runtime ALICE_TEXT (Ok NO_PREDICATE_RESPONSE)
       ref_uuid4 alice_google
     = ({| entities := entities alice_google;
           relations := relations alice_google;
           texts := texts alice_google ++ [ALICE_TEXT] |},
        Raise KeyError).
Proof.
  split; [vm_compute; reflexivity|]. split.
  - eexists. vm_compute. reflexivity.
  - vm_compute. reflexivity.
Qed.

Lemma alice_google_reachable : @reachable reference_runtime alice_google.
Proof. apply reachable_add_text, reachable_empty. Defined.

Lemma unresolved_relation_dropped :
  @add_relation reference_runtime knows_bob alice_google
  = (alice_google, Ok tt).
Proof.
  apply (proj1 (proj2 (@stored_relations_reference_entities reference_runtime
                         knows_bob ALICE_TEXT (Ok ALICE_RESPONSE) ref_uuid4
                         alice_google))
           (lit "Alice") (lit "Bob")).
  - reflexivity.
  - reflexivity.
  - right. vm_compute. reflexivity.
Defined.

Lemma google_again_discarded :
  @add_entity reference_runtime (ref_uuid4 7) google_again alice_google
  = (alice_google, Ok tt).
Proof.
  eapply (@duplicate_entity_is_discarded reference_runtime).
  - exact alice_google_reachable.
  - vm_compute. right; left; reflexivity.
  - vm_compute. reflexivity.
  - reflexivity.
  - reflexivity.
Defined.

Lemma not_json_is_empty_extraction :
  @_parse_response reference_runtime NOT_JSON = Ok (PList [], PList [])
  /\ @add_text reference_runtime ALICE_TEXT (Ok NOT_JSON) ref_uuid4 alice_google
     = ({| entities := entities alice_google;
           relations := relations alice_google;
           texts := texts alice_google ++ [ALICE_TEXT] |}, Ok tt).
Proof.
  destruct (@malformed_response_is_empty_extraction reference_runtime
              ALICE_TEXT NOT_JSON NOT_JSON ref_uuid4 alice_google)
    as (Hp & Hadd & _).
  - vm_compute. reflexivity.
  - vm_compute. reflexivity.
  - split; [exact Hp | exact Hadd].
Defined.

Lemma two_employers_last_reference : last_reference_exported two_employers.
Proof.
  apply last_write_wins_without_at_id.
  - vm_compute. reflexivity.
  - unfold distinct_uris. vm_compute.
    repeat constructor; simpl; intuition discriminate.
Defined.

Lemma alice_google_line_count :
  exists text,
    snd (to_rdf alice_google) = Ok text
    /\ List.length (body_lines text) = 5%nat.
Proof.
  apply (proj2 (export_counts alice_google)). vm_compute. reflexivity.
Defined.


(** * Further properties *)

(** ** Identifier builder *)

Lemma forallb_filter_self A (f : A -> bool) (l : list A) :
  forallb f (filter f l) = true.
Proof.
  apply forallb_forall. intros x Hx. apply filter_In in Hx. apply Hx.
Qed.

Lemma id_chars_Forall (s : pystr) :
  id_chars s = true <-> Forall (fun c => id_char c = true) s.
Proof. unfold id_chars. rewrite forallb_forall, Forall_forall. tauto. Qed.

Lemma clean_fixed (s : pystr) :
  id_chars s = true -> sub_non_id (sub_spaces s) = s.
Proof.
  intros H. apply id_chars_Forall in H. unfold sub_non_id, sub_spaces.
  assert (Hsp : filter (fun c => negb (py_isspace c)) s = s).
  { apply filter_id. eapply Forall_impl; [|exact H]. simpl. intros c Hc.
    rewrite (id_char_not_space _ Hc). reflexivity. }
  rewrite Hsp. apply filter_id, H.
Qed.

Lemma build_uri_clean (id : pystr) :
  id_chars id = true -> _build_uri id = lit "urn:kg:" ++ id.
Proof.
  intros H. unfold _build_uri. cbv zeta. rewrite (clean_fixed _ H).
  reflexivity.
Qed.

(** X1. [_build_uri] returns the scheme prefix followed by characters of
    the identifier class only, and cleaning is idempotent: the URI of
    that suffix is the same URI. *)
Theorem build_uri_shape (entity_id : pystr) :
  exists suffix,
    _build_uri entity_id = lit "urn:kg:" ++ suffix
    /\ id_chars suffix = true
    /\ _build_uri suffix = _build_uri entity_id.
Proof.
  exists (sub_non_id (sub_spaces entity_id)).
  assert (Hc : id_chars (sub_non_id (sub_spaces entity_id)) = true)
    by apply forallb_filter_self.
  split; [reflexivity|]. split; [exact Hc|].
  rewrite (build_uri_clean _ Hc). reflexivity.
Qed.

(** X2. Identifiers made of characters of the identifier class, as
    [uuid4] prints them, are kept as they are by [_build_uri]: pairwise
    distinct identifiers give pairwise distinct URIs. *)
Theorem clean_ids_distinct_uris (self : KnowledgeGraphConstructor) :
  Forall (fun e => id_chars (entity_id e) = true)
    (dict_values (entities self)) ->
  NoDup (List.map entity_id (dict_values (entities self))) ->
  distinct_uris self.
Proof.
  unfold distinct_uris.
  induction (dict_values (entities self)) as [|e es IH]; simpl;
    intros Hc Hnd; [constructor|].
  inversion Hc as [|? ? Hce Hces]; subst.
  inversion Hnd as [|? ? Hnotin Hnd']; subst.
  constructor; [|apply IH; assumption].
  intros Hin. apply Hnotin. apply in_map_iff in Hin.
  destruct Hin as (e' & Heq & Hin'). apply in_map_iff. exists e'.
  split; [|exact Hin'].
  rewrite Forall_forall in Hces. unfold uri_of in Heq.
  rewrite (build_uri_clean _ Hce), (build_uri_clean _ (Hces _ Hin')) in Heq.
  apply app_inv_head in Heq. exact Heq.
Qed.

Lemma two_employers_distinct_uris : distinct_uris two_employers.
Proof.
  apply clean_ids_distinct_uris.
  - vm_compute. repeat constructor.
  - vm_compute. repeat constructor; simpl; intuition discriminate.
Defined.

(** X3. The local name that [to_rdf] writes for an identifier, placed
    after the namespace of the [kg:] prefix, is the lower-cased URI that
    [to_jsonld] writes for it; the two are the same string when the
    identifier has no upper-case letter. *)
Theorem rdf_local_name_is_lowered_uri (id : pystr) :
  lit "urn:kg:" ++ _sanitize_id id = py_lower (_build_uri id)
  /\ (py_lower id = id ->
      lit "urn:kg:" ++ _sanitize_id id = _build_uri id).
Proof.
  assert (H1 : lit "urn:kg:" ++ _sanitize_id id = py_lower (_build_uri id)).
  { unfold _build_uri, _sanitize_id, py_lower. cbv zeta.
    rewrite !map_app. reflexivity. }
  split; [exact H1|]. intros Hlow.
  assert (Hclean : py_lower (sub_non_id (sub_spaces id))
                   = sub_non_id (sub_spaces id)).
  { clear H1. unfold py_lower in *. unfold sub_non_id, sub_spaces.
    revert Hlow. induction id as [|c id IH]; simpl; [reflexivity|].
    intros E. injection E as Hc Hid.
    destruct (py_isspace c); simpl; [apply IH, Hid|].
    destruct (id_char c); simpl; [|apply IH, Hid].
    rewrite Hc, (IH Hid). reflexivity. }
  unfold _sanitize_id, _build_uri. cbv zeta. rewrite Hclean. reflexivity.
Qed.

Lemma uuid_local_name_is_uri :
  lit "urn:kg:" ++ _sanitize_id (ref_uuid4 0) = _build_uri (ref_uuid4 0).
Proof.
  apply (proj2 (rdf_local_name_is_lowered_uri (ref_uuid4 0))).
  vm_compute. reflexivity.
Defined.

(** ** Dedup keys *)

Lemma split_at_first A (x : A) (l1 l2 r1 r2 : list A) :
  ~ In x l1 -> ~ In x l2 ->
  l1 ++ x :: r1 = l2 ++ x :: r2 -> l1 = l2 /\ r1 = r2.
Proof.
  revert l2. induction l1 as [|a l1 IH]; intros [|b l2] H1 H2 E; simpl in *.
  - injection E as ->. auto.
  - injection E as -> _. tauto.
  - injection E as -> _. tauto.
  - injection E as -> E. destruct (IH l2) as [-> ->]; auto.
Qed.

Lemma sanitize_no_colon (text : pystr) : ~ In 58 (_sanitize_id text).
Proof.
  intros Hin. pose proof (sanitize_chars text) as H.
  rewrite Forall_forall in H. specialize (H _ Hin). discriminate.
Qed.

Lemma entity_key_pair (e1 e2 : SchemaOrgEntity) :
  entity_key_of e1 = entity_key_of e2 <-> dedup_pair e1 = dedup_pair e2.
Proof.
  unfold entity_key_of, dedup_pair. split.
  - intros E.
    apply (f_equal (@rev N)) in E. rewrite !rev_app_distr in E.
    change (rev (lit ":")) with [58] in E. rewrite <- !app_assoc in E.
    apply split_at_first in E.
    + destruct E as [E1 E2].
      apply (f_equal (@rev N)) in E1, E2. rewrite !rev_involutive in E1, E2.
      congruence.
    + rewrite <- in_rev. apply sanitize_no_colon.
    + rewrite <- in_rev. apply sanitize_no_colon.
  - intros E. injection E as -> ->. reflexivity.
Qed.

(** X4. The key [type:canonical-name] under which an entity is filed
    identifies the pair (type, canonical name): two entities have the
    same key exactly when they have the same type and the same
    canonicalized name, also when a type contains colons. *)
Theorem entity_key_identifies_pair (e1 e2 : SchemaOrgEntity) :
  entity_key_of e1 = entity_key_of e2
  <-> schema_type e1 = schema_type e2
      /\ _sanitize_id (name e1) = _sanitize_id (name e2).
Proof.
  rewrite entity_key_pair. unfold dedup_pair. split.
  - intros E. injection E as -> ->. auto.
  - intros [-> ->]. reflexivity.
Qed.

(** ** Ingestion *)

Section MoreIngestion.

Context {RT : PyRuntime}.

(** X5. Whatever the Oracle answers, and whether the call returns or
    raises, [add_text] only appends: the stores of the graph before the
    call are prefixes of the stores after it, and [get_stats] then
    reports exactly one more text and no fewer entities and relations. *)
Theorem add_text_appends_only (text : pystr) (reply : result pystr)
    (uuid4 : nat -> pystr) (self : KnowledgeGraphConstructor) :
  exists es rs before after,
    fst (add_text text reply uuid4 self) = extended self es rs [text]
    /\ snd (get_stats self) = Ok before
    /\ snd (get_stats (fst (add_text text reply uuid4 self))) = Ok after
    /\ texts_processed after = S (texts_processed before)
    /\ (stats_entities before <= stats_entities after)%nat
    /\ (stats_relations before <= stats_relations after)%nat.
Proof.
  destruct (add_text_writes text reply uuid4 self) as (es & rs & E & _ & _).
  exists es, rs. eexists. eexists. split; [exact E|].
  split; [reflexivity|]. split; [reflexivity|].
  rewrite E. simpl. rewrite !length_app. simpl. lia.
Qed.

(** *** Keys of the Entity Store *)

Lemma store_entity_keys (entity : SchemaOrgEntity)
    (self : KnowledgeGraphConstructor) :
  NoDup (dict_keys (entities self)) ->
  NoDup (dict_keys (entities (fst (store_entity entity self)))).
Proof.
  intros Hnd. rewrite store_entity_run.
  destruct (dict_mem (entity_key_of entity) (entities self)) eqn:E;
    simpl; [exact Hnd|].
  unfold dict_keys. rewrite map_app. simpl. apply NoDup_app.
  - exact Hnd.
  - repeat constructor. simpl. tauto.
  - intros x Hx [<-|[]]. exact (dict_mem_keys _ _ E Hx).
Qed.

Lemma add_entity_keys (uuid : pystr) (entity_data : pyval)
    (self : KnowledgeGraphConstructor) :
  NoDup (dict_keys (entities self)) ->
  NoDup (dict_keys (entities (fst (add_entity uuid entity_data self)))).
Proof.
  intros Hnd. unfold add_entity. simpl.
  destruct (entity_of uuid entity_data) as [entity|e]; simpl; [|exact Hnd].
  apply store_entity_keys, Hnd.
Qed.

Lemma entity_loop_keys (uuid4 : nat -> pystr) (items : list pyval) :
  forall (i : nat) (self : KnowledgeGraphConstructor),
    NoDup (dict_keys (entities self)) ->
    NoDup (dict_keys (entities (fst
      (for_each_from i items (fun i entity_data =>
         add_entity (uuid4 i) entity_data) self)))).
Proof.
  induction items as [|d items IH]; intros i self Hnd; simpl; [exact Hnd|].
  pose proof (add_entity_keys (uuid4 i) d self Hnd) as H1.
  destruct (add_entity (uuid4 i) d self) as [self1 [[]|e]]; simpl in *.
  - apply IH, H1.
  - exact H1.
Qed.

Lemma add_text_keys (text : pystr) (reply : result pystr)
    (uuid4 : nat -> pystr) (self : KnowledgeGraphConstructor) :
  NoDup (dict_keys (entities self)) ->
  NoDup (dict_keys (entities (fst (add_text text reply uuid4 self)))).
Proof.
  intros Hnd. unfold add_text. simpl.
  destruct (extract_entities_and_relations reply) as [[ents rels]|]; simpl;
    [|exact Hnd].
  destruct (py_iter ents) as [entity_items|]; simpl; [|exact Hnd].
  match goal with
  | |- context [for_each_from 0 entity_items ?body ?s0] =>
      pose proof (entity_loop_keys uuid4 entity_items 0 s0 Hnd) as H1;
      destruct (for_each_from 0 entity_items body s0) as [self1 [[]|e]]
  end; simpl in *; [|exact H1].
  destruct (py_iter rels) as [relation_items|]; simpl; [|exact H1].
  destruct (relation_loop_writes relation_items self1) as (rs & E & _).
  destruct (for_each relation_items add_relation self1) as [self2 out].
  simpl in *. rewrite E. exact H1.
Qed.

Lemma reachable_keys (self : KnowledgeGraphConstructor) :
  reachable self -> NoDup (dict_keys (entities self)).
Proof.
  induction 1 as [|self text reply uuid4 _ IH]; [constructor|].
  apply add_text_keys, IH.
Qed.

Lemma keys_of_own (es : dict SchemaOrgEntity) :
  Forall own_key es ->
  dict_keys es = List.map entity_key_of (dict_values es).
Proof.
  unfold dict_keys, dict_values. induction 1 as [|[k e] es Hk _ IH]; simpl;
    [reflexivity|].
  unfold own_key in Hk. simpl in Hk. rewrite Hk, IH. reflexivity.
Qed.

Lemma NoDup_map_through A B C (f : A -> B) (g : B -> C) (l : list A) :
  NoDup (map (fun a => g (f a)) l) -> NoDup (map f l).
Proof.
  induction l as [|a l IH]; simpl; intros H; [constructor|].
  inversion H as [|? ? Hnotin Hnd]; subst.
  constructor; [|apply IH, Hnd].
  intros Hin. apply Hnotin. apply in_map_iff in Hin.
  destruct Hin as (a' & E & Hin). apply in_map_iff. exists a'.
  split; [rewrite E; reflexivity | exact Hin].
Qed.

(** X6. In every graph reached by [add_text] calls, no two stored
    entities have the same type and the same canonicalized name, and no
    key occurs twice. *)
Theorem reachable_entities_unique (self : KnowledgeGraphConstructor) :
  reachable self ->
  NoDup (dict_keys (entities self))
  /\ NoDup (List.map dedup_pair (dict_values (entities self))).
Proof.
  intros Hreach. pose proof (reachable_keys Hreach) as Hnd.
  split; [exact Hnd|].
  destruct (reachable_invariant Hreach) as [Hown _].
  rewrite (keys_of_own Hown) in Hnd.
  apply (NoDup_map_through dedup_pair
           (fun p => fst p ++ lit ":" ++ snd p)).
  exact Hnd.
Qed.



(** X8. Insert then look up: in a reachable graph, after the loop body
    has run on a candidate that validates, [_find_entity_key] resolves
    every spelling of its name (same canonical form) to a stored entry
    with that canonical name. *)
Theorem ingested_name_resolves
    (uuid : pystr) (entity_data : pyval) (entity : SchemaOrgEntity)
    (q : pystr) (self : KnowledgeGraphConstructor) :
  reachable self ->
  entity_of uuid entity_data = Ok entity ->
  _sanitize_id q = _sanitize_id (name entity) ->
  exists key e,
    _find_entity_key (fst (add_entity uuid entity_data self)) q = Some key
    /\ In (key, e) (entities (fst (add_entity uuid entity_data self)))
    /\ _sanitize_id (name e) = _sanitize_id q.
Proof.
  intros Hreach Hent Hq.
  destruct (reachable_invariant Hreach) as [Hown _].
  assert (Hstored : exists k e,
            In (k, e) (entities (fst (add_entity uuid entity_data self)))
            /\ _sanitize_id (name e) = _sanitize_id q).
  { unfold add_entity. simpl. rewrite Hent. simpl. rewrite store_entity_run.
    destruct (dict_mem (entity_key_of entity) (entities self)) eqn:E; simpl.
    - unfold dict_mem in E.
      destruct (dict_get (entity_key_of entity) (entities self)) as [e'|] eqn:G;
        [|discriminate].
      apply dict_get_In in G. exists (entity_key_of entity), e'.
      split; [exact G|]. rewrite Forall_forall in Hown.
      pose proof (Hown _ G) as Hk. unfold own_key in Hk. simpl in Hk.
      apply entity_key_pair in Hk. unfold dedup_pair in Hk.
      injection Hk as _ Hn. congruence.
    - exists (entity_key_of entity), entity. split; [|congruence].
      apply in_or_app. right. left. reflexivity. }
  destruct Hstored as (k & e & Hin & Hn).
  unfold _find_entity_key.
  pose proof (find_key_loop_spec (_sanitize_id q)
                (entities (fst (add_entity uuid entity_data self)))) as Hspec.
  destruct (find_key_loop (_sanitize_id q)
              (entities (fst (add_entity uuid entity_data self))))
    as [key|].
  - destruct Hspec as (before & e' & after & Hsplit & Hm & _).
    exists key, e'. split; [reflexivity|]. split; [|exact Hm].
    rewrite Hsplit. apply in_or_app. right. left. reflexivity.
  - rewrite Forall_forall in Hspec. destruct (Hspec _ Hin Hn).
Qed.

(** *** Relations *)

Lemma own_key_nonempty (kv : pystr * SchemaOrgEntity) :
  own_key kv -> is_empty (fst kv) = false.
Proof.
  unfold own_key, entity_key_of. intros ->.
  destruct (schema_type (snd kv)); reflexivity.
Qed.

Lemma find_entity_key_entry (self : KnowledgeGraphConstructor)
    (q key : pystr) :
  _find_entity_key self q = Some key ->
  exists e, entities_getitem self key = Ok e /\ In (key, e) (entities self).
Proof.
  unfold _find_entity_key, entities_getitem. intros H.
  destruct (find_key_loop_In _ _ H) as (e & -> & Hin). eauto.
Qed.

(** X9. In a reachable graph, a relation record whose subject and object
    names resolve and whose predicate validates is stored: the relation
    appended carries the identifiers of the two entries found, the
    validated predicate and its schema.org URI. *)
Theorem resolved_relation_is_appended
    (rel_data pred : pyval) (s o p sk ok : pystr)
    (self : KnowledgeGraphConstructor) :
  reachable self ->
  py_getitem rel_data (lit "subject") = Ok (PStr s) ->
  py_getitem rel_data (lit "object") = Ok (PStr o) ->
  py_getitem rel_data (lit "predicate") = Ok pred ->
  validate_str pred = Some p ->
  _find_entity_key self s = Some sk ->
  _find_entity_key self o = Some ok ->
  exists subj obj,
    dict_get sk (entities self) = Some subj
    /\ dict_get ok (entities self) = Some obj
    /\ add_relation rel_data self
       = ({| entities := entities self;
             relations := relations self
               ++ [{| subject_id := entity_id subj; predicate := p;
                      predicate_uri := lit "https://schema.org/" ++ py_str pred;
                      object_id := entity_id obj |}];
             texts := texts self |}, Ok tt).
Proof.
  intros Hreach Hs Ho Hp Hv Hsk Hok.
  destruct (reachable_invariant Hreach) as [Hown _].
  rewrite Forall_forall in Hown.
  destruct (find_entity_key_entry self s Hsk) as (subj & Gs & Ins).
  destruct (find_entity_key_entry self o Hok) as (obj & Go & Ino).
  pose proof (own_key_nonempty (Hown _ Ins)) as Es.
  pose proof (own_key_nonempty (Hown _ Ino)) as Eo.
  simpl in Es, Eo.
  exists subj, obj.
  unfold entities_getitem in Gs, Go.
  destruct (dict_get sk (entities self)) as [subj'|] eqn:Ds; [|discriminate].
  destruct (dict_get ok (entities self)) as [obj'|] eqn:Do; [|discriminate].
  injection Gs as ->. injection Go as ->.
  split; [reflexivity|]. split; [reflexivity|].
  unfold add_relation, resolve. simpl. rewrite Hs, Ho. simpl.
  rewrite Hsk, Hok. simpl. rewrite Es, Eo. simpl.
  unfold entities_getitem. rewrite Ds, Do. simpl. rewrite Hp. simpl.
  unfold new_SchemaOrgRelation. rewrite Hv. reflexivity.
Qed.

(** *** Well-formed extractions *)

Lemma entity_record_returns (uuid : pystr) (entity_data : pyval) :
  (forall s, validate_str (PStr s) <> None) ->
  (forall d, validate_dict (PDict d) <> None) ->
  entity_record_ok entity_data = true ->
  exists entity, entity_of uuid entity_data = Ok entity.
Proof.
  intros Hvs Hvd Hok. unfold entity_record_ok in Hok.
  destruct entity_data as [| | | | |l|fields]; try discriminate.
  destruct (dict_get (lit "name") fields) as [[| | | |n| |]|] eqn:En;
    try discriminate.
  destruct (dict_get (lit "type") fields) as [[| | | |t| |]|] eqn:Et;
    try discriminate.
  unfold entity_of, py_getitem, py_get. rewrite En, Et. simpl.
  unfold new_SchemaOrgEntity.
  destruct (validate_str (PStr n)) eqn:Vn; [|destruct (Hvs _ Vn)].
  destruct (validate_str (PStr t)) eqn:Vt; [|destruct (Hvs _ Vt)].
  destruct (dict_get (lit "properties") fields) as [[| | | | | |props]|];
    try discriminate; simpl.
  - destruct (validate_dict (PDict props)) eqn:Vp; [|destruct (Hvd _ Vp)].
    eauto.
  - destruct (validate_dict (PDict [])) eqn:Vp; [|destruct (Hvd _ Vp)].
    eauto.
Qed.

Lemma entity_loop_returns (uuid4 : nat -> pystr) (items : list pyval) :
  (forall s, validate_str (PStr s) <> None) ->
  (forall d, validate_dict (PDict d) <> None) ->
  forallb entity_record_ok items = true ->
  forall (i : nat) (self : KnowledgeGraphConstructor),
    snd (for_each_from i items (fun i entity_data =>
           add_entity (uuid4 i) entity_data) self) = Ok tt.
Proof.
  intros Hvs Hvd. induction items as [|d items IH]; simpl; intros Hok i self;
    [reflexivity|].
  apply andb_true_iff in Hok. destruct Hok as [Hd Hitems].
  destruct (entity_record_returns (uuid4 i) d Hvs Hvd Hd) as (entity & E).
  unfold add_entity at 1. simpl. rewrite E. simpl. rewrite store_entity_run.
  destruct (dict_mem (entity_key_of entity) (entities self)); apply IH, Hitems.
Qed.

Lemma relation_record_returns (rel_data : pyval)
    (self : KnowledgeGraphConstructor) :
  (forall s, validate_str (PStr s) <> None) ->
  relation_record_ok rel_data = true ->
  snd (add_relation rel_data self) = Ok tt.
Proof.
  intros Hvs Hok. unfold relation_record_ok in Hok.
  destruct rel_data as [| | | | |l|fields]; try discriminate.
  destruct (dict_get (lit "subject") fields) as [[| | | |s| |]|] eqn:Es;
    try discriminate.
  destruct (dict_get (lit "predicate") fields) as [[| | | |p| |]|] eqn:Ep;
    try discriminate.
  destruct (dict_get (lit "object") fields) as [[| | | |o| |]|] eqn:Eo;
    try discriminate.
  unfold add_relation, resolve, py_getitem. simpl. rewrite Es, Eo. simpl.
  destruct (_find_entity_key self s) as [sk|] eqn:Hsk; [|reflexivity].
  destruct (_find_entity_key self o) as [ok|] eqn:Hok'; [|reflexivity].
  simpl. destruct (negb (is_empty sk) && negb (is_empty ok)); [|reflexivity].
  destruct (find_entity_key_entry self s Hsk) as (subj & -> & _).
  destruct (find_entity_key_entry self o Hok') as (obj & -> & _).
  simpl. rewrite Ep. simpl. unfold new_SchemaOrgRelation.
  destruct (validate_str (PStr p)) eqn:Vp; [reflexivity | destruct (Hvs _ Vp)].
Qed.

Lemma relation_loop_returns (items : list pyval) :
  (forall s, validate_str (PStr s) <> None) ->
  forallb relation_record_ok items = true ->
  forall self : KnowledgeGraphConstructor,
    snd (for_each items add_relation self) = Ok tt.
Proof.
  intros Hvs. induction items as [|d items IH]; simpl; intros Hok self;
    [reflexivity|].
  apply andb_true_iff in Hok. destruct Hok as [Hd Hitems].
  pose proof (relation_record_returns d self Hvs Hd) as E.
  destruct (add_relation d self) as [self1 out]. simpl in E. subst out.
  apply IH, Hitems.
Qed.

(** X10. [add_text] returns without raising when the response decodes
    to an object whose [entities] (absent, or a list) are records with a
    [str] name, a [str] type and at most a [dict] of properties, and
    whose [relations] (absent, or a list) are records with [str]
    subject, predicate and object, on a runtime whose validation accepts
    a [str] for a [str] field and a [dict] for a [dict] field. *)
Theorem well_formed_extraction_returns
    (text response payload : pystr) (data : pyval) (es rs : list pyval)
    (uuid4 : nat -> pystr) (self : KnowledgeGraphConstructor) :
  (forall s, validate_str (PStr s) <> None) ->
  (forall d, validate_dict (PDict d) <> None) ->
  unfence response = Ok payload ->
  json_loads (py_strip payload) = Ok data ->
  py_get data (lit "entities") (PList []) = Ok (PList es) ->
  py_get data (lit "relations") (PList []) = Ok (PList rs) ->
  forallb entity_record_ok es = true ->
  forallb relation_record_ok rs = true ->
  snd (add_text text (Ok response) uuid4 self) = Ok tt.
Proof.
  intros Hvs Hvd Hu Hj He Hr Hes Hrs.
  unfold add_text, extract_entities_and_relations, _parse_response. simpl.
  rewrite Hu. simpl. rewrite Hj. simpl. rewrite He. simpl. rewrite Hr. simpl.
  match goal with
  | |- context [for_each_from 0 es ?body ?s0] =>
      pose proof (entity_loop_returns uuid4 es Hvs Hvd Hes 0 s0) as H1;
      destruct (for_each_from 0 es body s0) as [self1 out1]
  end.
  simpl in H1. subst out1.
  apply relation_loop_returns; assumption.
Qed.

End MoreIngestion.

Lemma alice_response_returns :
  snd (@add_text reference_runtime ALICE_TEXT (Ok ALICE_RESPONSE) ref_uuid4
         empty_KG) = Ok tt.
Proof.
  eapply (@well_formed_extraction_returns reference_runtime).
  - discriminate.
  - discriminate.
  - vm_compute. reflexivity.
  - vm_compute. reflexivity.
  - vm_compute. reflexivity.
  - vm_compute. reflexivity.
  - vm_compute. reflexivity.
  - vm_compute. reflexivity.
Defined.

(** *** Ingesting the same reply again *)

Section Repeat.

Context {RT : PyRuntime}.

Lemma add_text_unfold (text : pystr) (reply : result pystr)
    (uuid4 : nat -> pystr) (self : KnowledgeGraphConstructor) :
  add_text text reply uuid4 self
  = let s0 := {| entities := entities self; relations := relations self;
                 texts := texts self ++ [text] |} in
    match extract_entities_and_relations reply with
    | Raise e => (s0, Raise e)
    | Ok (ents, rels) =>
        match py_iter ents with
        | Raise e => (s0, Raise e)
        | Ok items =>
            match for_each_from 0 items
                    (fun i d => add_entity (uuid4 i) d) s0 with
            | (s1, Raise e) => (s1, Raise e)
            | (s1, Ok _) =>
                match py_iter rels with
                | Raise e => (s1, Raise e)
                | Ok ritems => for_each ritems add_relation s1
                end
            end
        end
    end.
Proof.
  unfold add_text. simpl.
  destruct (extract_entities_and_relations reply) as [[ents rels]|];
    [|reflexivity]. simpl.
  destruct (py_iter ents) as [items|]; [|reflexivity]. simpl.
  match goal with
  | |- context [for_each_from 0 items ?body ?s0] =>
      destruct (for_each_from 0 items body s0) as [s1 [[]|e]]
  end; [|reflexivity].
  destruct (py_iter rels); reflexivity.
Qed.

Lemma entity_of_other_uuid (u u' : pystr) (entity_data : pyval) :
  match entity_of u entity_data with
  | Ok e =>
      exists e', entity_of u' entity_data = Ok e'
                 /\ entity_key_of e' = entity_key_of e
  | Raise x => entity_of u' entity_data = Raise x
  end.
Proof.
  unfold entity_of. simpl.
  destruct (py_getitem entity_data (lit "name")) as [n|]; [|reflexivity].
  destruct (py_getitem entity_data (lit "type")) as [t|]; [|reflexivity].
  destruct (py_get entity_data (lit "properties") (PDict [])) as [p|];
    [|reflexivity].
  unfold new_SchemaOrgEntity.
  destruct (validate_str n); [|reflexivity].
  destruct (validate_str t); [|reflexivity].
  destruct (validate_dict p); [|reflexivity].
  eexists. split; reflexivity.
Qed.

Lemma dict_mem_app V (k : pystr) (d d' : dict V) :
  dict_mem k d = true -> dict_mem k (d ++ d') = true.
Proof.
  unfold dict_mem. induction d as [|[k' v] d IH]; simpl; [discriminate|].
  destruct (str_eqb k' k); [reflexivity | exact IH].
Qed.

Lemma store_entity_member (entity : SchemaOrgEntity)
    (self : KnowledgeGraphConstructor) :
  dict_mem (entity_key_of entity)
    (entities (fst (store_entity entity self))) = true.
Proof.
  rewrite store_entity_run.
  destruct (dict_mem (entity_key_of entity) (entities self)) eqn:E; simpl;
    [exact E|].
  unfold dict_mem. apply dict_mem_false in E.
  assert (H : dict_get (entity_key_of entity)
                (entities self ++ [(entity_key_of entity, entity)])
              = Some entity).
  { induction (entities self) as [|[k v] d IH]; simpl in *.
    - rewrite str_eqb_refl. reflexivity.
    - destruct (str_eqb k (entity_key_of entity)); [discriminate|].
      apply IH, E. }
  rewrite H. reflexivity.
Qed.

Lemma add_entity_run (uuid : pystr) (entity_data : pyval)
    (self : KnowledgeGraphConstructor) :
  add_entity uuid entity_data self
  = match entity_of uuid entity_data with
    | Ok entity => store_entity entity self
    | Raise x => (self, Raise x)
    end.
Proof. reflexivity. Qed.

Lemma for_each_from_cons A (i : nat) (x : A) (xs : list A)
    (body : nat -> A -> M unit) (self : KnowledgeGraphConstructor) :
  for_each_from i (x :: xs) body self
  = match body i x self with
    | (s1, Ok _) => for_each_from (S i) xs body s1
    | (s1, Raise e) => (s1, Raise e)
    end.
Proof. reflexivity. Qed.

(** A second pass over the same candidates, on a store that has the keys
    the first pass left, stores nothing and ends the same way. *)
Lemma entity_loop_again (uuid4 uuid4' : nat -> pystr) (items : list pyval) :
  forall (i j : nat) (s s' : KnowledgeGraphConstructor),
    (forall k,
        dict_mem k (entities (fst (for_each_from i items
                      (fun i d => add_entity (uuid4 i) d) s))) = true ->
        dict_mem k (entities s') = true) ->
    for_each_from j items (fun i d => add_entity (uuid4' i) d) s'
    = (s', snd (for_each_from i items (fun i d => add_entity (uuid4 i) d) s)).
Proof.
  induction items as [|d items IH]; intros i j s s' Hkeys; [reflexivity|].
  rewrite !for_each_from_cons in *. rewrite !add_entity_run in *.
  pose proof (entity_of_other_uuid (uuid4 i) (uuid4' j) d) as Hother.
  destruct (entity_of (uuid4 i) d) as [e|x].
  - destruct Hother as (e' & -> & Hkey).
    pose proof (store_entity_member e s) as Hmem.
    rewrite (store_entity_run e s) in *.
    assert (Hstep : exists sa,
              (if dict_mem (entity_key_of e) (entities s)
               then (s, Ok tt)
               else ({| entities := entities s ++ [(entity_key_of e, e)];
                        relations := relations s; texts := texts s |},
                     Ok tt)) = (sa, Ok tt)).
    { destruct (dict_mem (entity_key_of e) (entities s)); eauto. }
    destruct Hstep as (sa & Esa). rewrite Esa in *. simpl in Hmem.
    assert (Hin : dict_mem (entity_key_of e') (entities s') = true).
    { apply Hkeys.
      destruct (entity_loop_writes uuid4 items (S i) sa) as (es & -> & _).
      simpl. apply dict_mem_app. rewrite Hkey. exact Hmem. }
    rewrite store_entity_run, Hin. apply IH. exact Hkeys.
  - rewrite Hother. reflexivity.
Qed.

Lemma add_relation_entities_only (rel_data : pyval)
    (s s' : KnowledgeGraphConstructor) :
  entities s = entities s' ->
  exists rs out,
    add_relation rel_data s
    = ({| entities := entities s; relations := relations s ++ rs;
          texts := texts s |}, out)
    /\ add_relation rel_data s'
       = ({| entities := entities s'; relations := relations s' ++ rs;
             texts := texts s' |}, out).
Proof.
  destruct s as [es r1 t1], s' as [es' r2 t2]. simpl. intros <-.
  assert (Hnone : forall out : result unit, exists rs out0,
    ({| entities := es; relations := r1; texts := t1 |}, out)
    = ({| entities := es; relations := r1 ++ rs; texts := t1 |}, out0)
    /\ ({| entities := es; relations := r2; texts := t2 |}, out)
       = ({| entities := es; relations := r2 ++ rs; texts := t2 |}, out0)).
  { intros out. exists [], out. rewrite !app_nil_r. auto. }
  unfold add_relation, resolve, _find_entity_key, entities_getitem. simpl.
  destruct (py_getitem rel_data (lit "subject")) as [vs|]; simpl; auto.
  destruct (re_subject vs) as [sn|]; simpl; auto.
  destruct (py_getitem rel_data (lit "object")) as [vo|]; simpl; auto.
  destruct (re_subject vo) as [on|]; simpl; auto.
  destruct (find_key_loop (_sanitize_id sn) es) as [sk|]; simpl; auto.
  destruct (find_key_loop (_sanitize_id on) es) as [ok|]; simpl; auto.
  destruct (negb (is_empty sk) && negb (is_empty ok)); simpl; auto.
  destruct (dict_get sk es) as [subj|]; simpl; auto.
  destruct (py_getitem rel_data (lit "predicate")) as [pred|]; simpl; auto.
  destruct (dict_get ok es) as [obj|]; simpl; auto.
  unfold new_SchemaOrgRelation.
  destruct (validate_str pred) as [p|]; simpl; auto.
  eexists [_], (Ok tt). split; reflexivity.
Qed.

Lemma relation_loop_entities_only (items : list pyval) :
  forall s s' : KnowledgeGraphConstructor,
    entities s = entities s' ->
    exists rs out,
      for_each items add_relation s
      = ({| entities := entities s; relations := relations s ++ rs;
            texts := texts s |}, out)
      /\ for_each items add_relation s'
         = ({| entities := entities s'; relations := relations s' ++ rs;
               texts := texts s' |}, out).
Proof.
  induction items as [|d items IH]; intros s s' He.
  - exists [], (Ok tt). simpl. rewrite !app_nil_r, !KG_eta. auto.
  - destruct (add_relation_entities_only d s s' He) as (rs1 & out1 & E1 & E2).
    cbn [for_each]. simpl. rewrite E1, E2.
    destruct out1 as [[]|x].
    + match goal with
      | |- context [for_each items add_relation ?a] =>
          match goal with
          | |- context [(for_each items add_relation ?b, _)] => idtac
          | _ => idtac
          end
      end.
      destruct (IH {| entities := entities s; relations := relations s ++ rs1;
                      texts := texts s |}
                   {| entities := entities s'; relations := relations s' ++ rs1;
                      texts := texts s' |} He)
        as (rs2 & out2 & F1 & F2).
      simpl in F1, F2. rewrite F1, F2.
      exists (rs1 ++ rs2), out2. rewrite !app_assoc. auto.
    + exists rs1, (Raise x). auto.
Qed.

(** What a call leaves, and what the same reply does to any graph that
    holds the same entities. *)
Lemma add_text_again (text : pystr) (reply : result pystr)
    (uuid4 : nat -> pystr) (self : KnowledgeGraphConstructor) :
  exists es rs,
    fst (add_text text reply uuid4 self)
    = {| entities := entities self ++ es; relations := relations self ++ rs;
         texts := texts self ++ [text] |}
    /\ forall (text' : pystr) (uuid4' : nat -> pystr)
              (s' : KnowledgeGraphConstructor),
         entities s' = entities self ++ es ->
         add_text text' reply uuid4' s'
         = ({| entities := entities s'; relations := relations s' ++ rs;
               texts := texts s' ++ [text'] |},
            snd (add_text text reply uuid4 self)).
Proof.
  rewrite (add_text_unfold text reply uuid4 self). cbv zeta.
  destruct (extract_entities_and_relations reply) as [[ents rels]|x] eqn:Ex.
  2:{ exists [], []. rewrite !app_nil_r. split; [reflexivity|].
      intros text' uuid4' s' _. rewrite add_text_unfold, Ex. cbv zeta.
      rewrite app_nil_r. reflexivity. }
  destruct (py_iter ents) as [items|x] eqn:Ei.
  2:{ exists [], []. rewrite !app_nil_r. split; [reflexivity|].
      intros text' uuid4' s' _. rewrite add_text_unfold, Ex, Ei. cbv zeta.
      rewrite app_nil_r. reflexivity. }
  set (s0 := {| entities := entities self; relations := relations self;
                texts := texts self ++ [text] |}).
  destruct (entity_loop_writes uuid4 items 0 s0) as (es & E1 & _).
  pose proof (fun uuid4' => entity_loop_again uuid4 uuid4' items 0 0 s0)
    as Hagain.
  destruct (for_each_from 0 items (fun i d => add_entity (uuid4 i) d) s0)
    as [s1 out1].
  cbn [fst snd] in E1, Hagain. subst s1. cbn [entities relations texts s0] in *.
  assert (Hsecond : forall (text' : pystr) (uuid4' : nat -> pystr)
                      (s' : KnowledgeGraphConstructor),
            entities s' = entities self ++ es ->
            for_each_from 0 items (fun i d => add_entity (uuid4' i) d)
              {| entities := entities s'; relations := relations s';
                 texts := texts s' ++ [text'] |}
            = ({| entities := entities s'; relations := relations s';
                  texts := texts s' ++ [text'] |}, out1)).
  { intros text' uuid4' s' Hs'. apply Hagain. cbn [entities].
    intros k Hk. rewrite Hs'. exact Hk. }
  clear Hagain.
  destruct out1 as [[]|x].
  - destruct (py_iter rels) as [ritems|x] eqn:Er.
    + set (s1 := {| entities := entities self ++ es;
                    relations := relations self;
                    texts := texts self ++ [text] |}).
      destruct (relation_loop_entities_only ritems s1 s1 eq_refl)
        as (rs & out & F1 & _).
      rewrite F1. cbn [fst snd entities relations texts s1].
      exists es, rs. split; [reflexivity|].
      intros text' uuid4' s' Hs'.
      rewrite add_text_unfold, Ex, Ei. cbv zeta.
      rewrite (Hsecond text' uuid4' s' Hs'), Er.
      destruct (relation_loop_entities_only ritems s1
                  {| entities := entities s'; relations := relations s';
                     texts := texts s' ++ [text'] |} (eq_sym Hs'))
        as (rs' & out' & G1 & G2).
      rewrite F1 in G1. injection G1 as Hrs Hout.
      cbn [relations s1] in Hrs. apply app_inv_head in Hrs. subst rs' out'.
      exact G2.
    + exists es, []. cbn [fst snd]. rewrite !app_nil_r.
      split; [reflexivity|].
      intros text' uuid4' s' Hs'.
      rewrite add_text_unfold, Ex, Ei. cbv zeta.
      rewrite (Hsecond text' uuid4' s' Hs'), Er, app_nil_r. reflexivity.
  - exists es, []. cbn [fst snd]. rewrite !app_nil_r.
    split; [reflexivity|].
    intros text' uuid4' s' Hs'.
    rewrite add_text_unfold, Ex, Ei. cbv zeta.
    rewrite (Hsecond text' uuid4' s' Hs'), app_nil_r. reflexivity.
Qed.

(** X11. Ingesting the same reply once more, right after the first time
    and whatever identifiers are drawn, stores no entity, appends the
    relations of the first time again (relations are not deduplicated)
    and ends the same way. *)
Theorem same_reply_again
    (text text' : pystr) (reply : result pystr) (uuid4 uuid4' : nat -> pystr)
    (self : KnowledgeGraphConstructor) :
  let once := add_text text reply uuid4 self in
  let twice := add_text text' reply uuid4' (fst once) in
  exists rs,
    relations (fst once) = relations self ++ rs
    /\ entities (fst twice) = entities (fst once)
    /\ relations (fst twice) = relations (fst once) ++ rs
    /\ texts (fst twice) = texts self ++ [text; text']
    /\ snd twice = snd once.
Proof.
  cbv zeta.
  destruct (add_text_again text reply uuid4 self) as (es & rs & E & Hnext).
  exists rs. rewrite (Hnext text' uuid4' _ (f_equal entities E)).
  rewrite E. cbn [fst snd entities relations texts].
  repeat split. rewrite <- app_assoc. reflexivity.
Qed.

End Repeat.

(** ** The fence around a response *)

Lemma starts_with_other (c : N) (sep s : pystr) :
  c <> BACKTICK -> starts_with (BACKTICK :: sep) (c :: s) = false.
Proof.
  intros Hc. cbn [starts_with].
  destruct (N.eqb_spec BACKTICK c); [congruence | reflexivity].
Qed.

Lemma no_backtick_cons (c : N) (s : pystr) :
  no_backtick (c :: s) = true -> c <> BACKTICK /\ no_backtick s = true.
Proof.
  unfold no_backtick. simpl. rewrite andb_true_iff, negb_true_iff, N.eqb_neq.
  tauto.
Qed.

Lemma split_prepend (sep pre t : pystr) :
  no_backtick pre = true ->
  split_from (BACKTICK :: sep) 0 (pre ++ t)
  = prepend pre (split_from (BACKTICK :: sep) 0 t).
Proof.
  induction pre as [|c pre IH]; intros Hpre.
  - simpl. pose proof (split_from_nonempty (BACKTICK :: sep) 0 t) as Hn.
    destruct (split_from (BACKTICK :: sep) 0 t); [congruence | reflexivity].
  - apply no_backtick_cons in Hpre. destruct Hpre as [Hc Hpre].
    change ((c :: pre) ++ t) with (c :: (pre ++ t)).
    cbn [split_from]. rewrite (starts_with_other sep (pre ++ t) Hc).
    rewrite (IH Hpre).
    destruct (split_from (BACKTICK :: sep) 0 t); reflexivity.
Qed.

Lemma split_skip (sep x t : pystr) :
  split_from sep (List.length x) (x ++ t) = split_from sep 0 t.
Proof. induction x as [|c x IH]; simpl; [reflexivity | exact IH]. Qed.

Lemma starts_with_app (p t : pystr) : starts_with p (p ++ t) = true.
Proof.
  induction p as [|c p IH]; simpl; [reflexivity|].
  rewrite N.eqb_refl. exact IH.
Qed.

Lemma split_at_separator (c : N) (sep t : pystr) :
  split_from (c :: sep) 0 ((c :: sep) ++ t) = [] :: split_from (c :: sep) 0 t.
Proof.
  change ((c :: sep) ++ t) with (c :: (sep ++ t)).
  cbn [split_from].
  change (c :: (sep ++ t)) with ((c :: sep) ++ t).
  rewrite starts_with_app. cbn [List.length pred]. rewrite split_skip.
  reflexivity.
Qed.

Lemma contains_after (sep pre t : pystr) :
  sep <> [] -> contains sep (pre ++ sep ++ t) = true.
Proof.
  intros Hsep. induction pre as [|c pre IH].
  - destruct sep as [|c sep]; [congruence|].
    change ([] ++ (c :: sep) ++ t) with (c :: (sep ++ t)).
    cbn [contains]. change (c :: (sep ++ t)) with ((c :: sep) ++ t).
    rewrite starts_with_app. reflexivity.
  - change ((c :: pre) ++ sep ++ t) with (c :: (pre ++ sep ++ t)).
    cbn [contains]. rewrite IH. apply orb_true_r.
Qed.

Lemma contains_no_backtick (sep s : pystr) :
  no_backtick s = true -> contains (BACKTICK :: sep) s = false.
Proof.
  induction s as [|c s IH]; intros Hs; [reflexivity|].
  apply no_backtick_cons in Hs. destruct Hs as [Hc Hs].
  cbn [contains]. rewrite (starts_with_other sep s Hc), (IH Hs). reflexivity.
Qed.

(** The text between the closing fence and the next opening fence, as
    the first split leaves it: nothing, or the closing fence and more. *)
Lemma closing_fence_part (post : pystr) :
  no_leading_backtick post = true ->
  exists tl ps,
    split_from FENCE_JSON 0 (FENCE ++ post) = tl :: ps
    /\ (tl = [] \/ exists x, tl = FENCE ++ x).
Proof.
  intros Hpost.
  change (FENCE ++ post) with (BACKTICK :: BACKTICK :: BACKTICK :: post).
  cbn [split_from].
  destruct (starts_with FENCE_JSON (BACKTICK :: BACKTICK :: BACKTICK :: post)).
  - eexists. eexists. split; [reflexivity | left; reflexivity].
  - assert (H2 : starts_with FENCE_JSON (BACKTICK :: BACKTICK :: post) = false).
    { change FENCE_JSON with (BACKTICK :: BACKTICK :: BACKTICK :: lit "json").
      destruct post as [|c post]; [reflexivity|].
      cbn [no_leading_backtick] in Hpost.
      apply negb_true_iff, N.eqb_neq in Hpost.
      cbn [starts_with]. rewrite !N.eqb_refl.
      destruct (N.eqb_spec BACKTICK c); [congruence | reflexivity]. }
    assert (H1 : starts_with FENCE_JSON (BACKTICK :: post) = false).
    { change FENCE_JSON with (BACKTICK :: BACKTICK :: BACKTICK :: lit "json").
      destruct post as [|c post]; [reflexivity|].
      cbn [no_leading_backtick] in Hpost.
      apply negb_true_iff, N.eqb_neq in Hpost.
      cbn [starts_with]. rewrite !N.eqb_refl.
      destruct (N.eqb_spec BACKTICK c); [congruence | reflexivity]. }
    rewrite H2, H1.
    pose proof (split_from_nonempty FENCE_JSON 0 post) as Hn.
    destruct (split_from FENCE_JSON 0 post) as [|p ps]; [congruence|].
    eexists. eexists. split; [reflexivity|]. right. exists p. reflexivity.
Qed.

Lemma unfence_fenced (pre body post : pystr) :
  no_backtick pre = true ->
  no_backtick body = true ->
  no_leading_backtick post = true ->
  unfence (fenced pre body post) = Ok body.
Proof.
  intros Hpre Hbody Hpost. unfold unfence, fenced.
  rewrite contains_after by discriminate.
  unfold py_split.
  change FENCE_JSON with (BACKTICK :: List.tl FENCE_JSON) at 1 2.
  rewrite split_prepend by exact Hpre. rewrite split_at_separator.
  rewrite split_prepend by exact Hbody.
  change (BACKTICK :: List.tl FENCE_JSON) with FENCE_JSON.
  destruct (closing_fence_part post Hpost) as (tl & ps & -> & Htl).
  cbn [prepend py_index nth_error bind Monad_result].
  change FENCE with (BACKTICK :: List.tl FENCE).
  rewrite split_prepend by exact Hbody.
  destruct Htl as [->|(x & ->)].
  - cbn [split_from prepend]. rewrite app_nil_r. reflexivity.
  - change FENCE with (BACKTICK :: List.tl FENCE).
    rewrite split_at_separator. cbn [prepend]. rewrite app_nil_r.
    reflexivity.
Qed.

Section Fence.

Context {RT : PyRuntime}.

(** X12. A payload fenced with the [json] tag is read as if it had been
    sent alone, whatever prose surrounds the fence: when the text before
    the fence and the payload hold no backtick and the text after the
    closing fence does not begin with one, [_parse_response] on the
    whole response is [_parse_response] on the payload. *)
Theorem fenced_payload_is_parsed (pre body post : pystr) :
  no_backtick pre = true ->
  no_backtick body = true ->
  no_leading_backtick post = true ->
  unfence (fenced pre body post) = Ok body
  /\ _parse_response (fenced pre body post) = _parse_response body.
Proof.
  intros Hpre Hbody Hpost.
  pose proof (unfence_fenced pre body post Hpre Hbody Hpost) as Hu.
  split; [exact Hu|].
  assert (Hb : unfence body = Ok body).
  { unfold unfence.
    change FENCE_JSON with (BACKTICK :: List.tl FENCE_JSON).
    change FENCE with (BACKTICK :: List.tl FENCE).
    rewrite !contains_no_backtick by exact Hbody. reflexivity. }
  unfold _parse_response. rewrite Hu, Hb. reflexivity.
Qed.

End Fence.

(** ** The exporters, further *)

(** X13. Whatever the stored names, types and predicates contain, the
    triple-text export begins with the two prefix declarations and an
    empty line. *)
Theorem rdf_starts_with_header (self : KnowledgeGraphConstructor) :
  exists text rest,
    snd (to_rdf self) = Ok text
    /\ lines_of text = RDF_HEADER ++ [] :: rest.
Proof.
  exists (py_join [LF] (rdf_lines self)).
  assert (Hlines : exists rest,
            lines_of (py_join [LF] (rdf_lines self))
            = RDF_HEADER ++ [] :: rest).
  { unfold rdf_lines.
    destruct (flat_map rdf_entity_lines (dict_values (entities self))
              ++ map rdf_relation_line (relations self)) as [|l more].
    - exists []. vm_compute. reflexivity.
    - exists (lines_of (py_join [LF] (l :: more))).
      cbn [app py_join].
      rewrite lines_of_app by (vm_compute; reflexivity).
      rewrite lines_of_app by (vm_compute; reflexivity).
      reflexivity. }
  destruct Hlines as (rest & Hrest).
  exists rest. split; [reflexivity | exact Hrest].
Qed.

Lemma make_nodes_clean (self : KnowledgeGraphConstructor)
    (es : list SchemaOrgEntity) :
  incl es (dict_values (entities self)) ->
  Forall (fun e => id_chars (entity_id e) = true) es ->
  make_nodes (entity_uri_map self) es = Ok (map Entry.node_of_entity es).
Proof.
  induction es as [|e es IH]; intros Hincl Hclean; [reflexivity|].
  inversion Hclean as [|? ? He Hes]; subst.
  cbn [make_nodes]. rewrite IH; [|intros x Hx; apply Hincl; right; exact Hx
                                 |exact Hes].
  unfold make_node. rewrite uri_map_get.
  assert (Hin : existsb (has_id (entity_id e)) (dict_values (entities self))
                = true).
  { apply id_stored_existsb. exists e. split; [|reflexivity].
    apply Hincl. left; reflexivity. }
  rewrite Hin, (build_uri_clean _ He). reflexivity.
Qed.

(** X14. The two linked-data exports agree: for a graph without
    relations whose entity identifiers are made of characters of the
    identifier class, [KnowledgeGraphConstructor.to_jsonld] returns the
    document that [KnowledgeGraphEntry.to_jsonld] returns for an entry
    holding the same entities in the same order. *)
Theorem entry_export_agrees
    (entry : Entry.KnowledgeGraphEntry) (self : KnowledgeGraphConstructor) :
  dict_values (entities self) = Entry.entities entry ->
  relations self = [] ->
  Forall (fun e => id_chars (entity_id e) = true) (Entry.entities entry) ->
  snd (to_jsonld self) = Ok (Entry.to_jsonld entry).
Proof.
  intros Hes Hrs Hclean. unfold to_jsonld, jsonld_graph. simpl.
  rewrite make_nodes_clean; [|apply incl_refl | rewrite Hes; exact Hclean].
  rewrite Hrs, Hes. reflexivity.
Qed.

Lemma alice_google_entry_agrees :
  snd (to_jsonld alice_google_entities) = Ok (Entry.to_jsonld alice_google_entry).
Proof.
  apply entry_export_agrees.
  - reflexivity.
  - reflexivity.
  - vm_compute. repeat constructor.
Defined.

Lemma attach_relations_empty (uri_map : dict pystr)
    (rs : list SchemaOrgRelation) :
  attach_relations uri_map [] rs = Ok [].
Proof.
  induction rs as [|r rs IH]; [reflexivity|].
  cbn [attach_relations]. unfold attach_relation.
  destruct (dict_get (subject_id r) uri_map);
    destruct (dict_get (object_id r) uri_map);
    try destruct (jsonld_guard uri_map r); exact IH.
Qed.

(** X15. In a graph where ["@id"] is neither a property name nor a
    predicate and the entities have pairwise distinct URIs, the
    linked-data export has, in insertion order, one node per entity that
    carries the URI of that entity under ["@id"], each key once. *)
Theorem jsonld_nodes_carry_their_uri (self : KnowledgeGraphConstructor) :
  at_id_free self = true ->
  distinct_uris self ->
  exists graph,
    jsonld_graph self = Ok graph
    /\ Forall2 node_of (dict_values (entities self)) graph.
Proof.
  intros Hfree Huniq.
  destruct (at_id_free_parts self Hfree) as [Hprops Hpreds].
  destruct (make_nodes_of self (es := dict_values (entities self)))
    as (nodes & Enodes & Hnodes); [apply incl_refl | exact Hprops |].
  unfold jsonld_graph. rewrite Enodes. cbn [bind Monad_result].
  destruct (nth_error (dict_values (entities self)) 0) as [e|] eqn:E0.
  - exact (@attach_relations_nodes self (relations self) 0 e Huniq E0
             Hpreds nodes Hnodes).
  - destruct Hnodes as [|e n es nodes]; [|discriminate].
    rewrite attach_relations_empty.
    exists []. split; [reflexivity | constructor].
Qed.

Lemma two_employers_nodes :
  exists graph,
    jsonld_graph two_employers = Ok graph
    /\ Forall2 node_of (dict_values (entities two_employers)) graph.
Proof.
  apply jsonld_nodes_carry_their_uri.
  - vm_compute. reflexivity.
  - unfold distinct_uris. vm_compute.
    repeat constructor; simpl; intuition discriminate.
Defined.

(** ** The extractor's type table *)

(** X16. [map_to_schemaorg] always returns the schema.org URI of a type
    of the table or of [Thing], and [Thing] whenever the lower-cased
    category is not a key. As [str.lower] lower-cases ASCII letters, two
    ASCII spellings of a category that differ in case only get the same
    URI. *)
Theorem map_to_schemaorg_range
    (str_lower : pystr -> pystr) (entity_type : pystr) :
  (exists t,
     map_to_schemaorg str_lower entity_type = lit "https://schema.org/" ++ t
     /\ (In t (dict_values TYPE_MAPPING) \/ t = lit "Thing")
     /\ (dict_mem (str_lower entity_type) TYPE_MAPPING = false ->
         t = lit "Thing"))
  /\ ((forall s, is_ascii s = true -> str_lower s = py_lower s) ->
      forall other,
        is_ascii entity_type = true -> is_ascii other = true ->
        py_lower entity_type = py_lower other ->
        map_to_schemaorg str_lower entity_type
        = map_to_schemaorg str_lower other).
Proof.
  split.
  - unfold map_to_schemaorg, dict_get_default, dict_mem. cbv zeta.
    destruct (dict_get (str_lower entity_type) TYPE_MAPPING) as [t|] eqn:E.
    + exists t. split; [reflexivity|]. split; [|discriminate].
      left. apply dict_get_In in E. apply (in_map snd) in E. exact E.
    + exists (lit "Thing"). auto.
  - intros Hlow other Ha Hb Heq. unfold map_to_schemaorg.
    rewrite (Hlow _ Ha), (Hlow _ Hb), Heq. reflexivity.
Qed.

Lemma person_any_case :
  map_to_schemaorg py_lower (lit "PERSON") = map_to_schemaorg py_lower (lit "Person").
Proof.
  apply (proj2 (map_to_schemaorg_range py_lower (lit "PERSON"))).
  - reflexivity.
  - reflexivity.
  - reflexivity.
  - reflexivity.
Defined.

(** ** The Oracle client *)

(** X17. [LLMClient] builds its connection lazily and once. A call of
    [_get_client] that returns leaves a client that every later call
    returns as it is, and [generate] then uses it with the model of the
    client; a call that raises leaves the object as it was, so the next
    call tries again. After [__init__], the first [generate] builds the
    client from the key given, or from the environment when the key is
    [None] or empty. *)
Theorem llm_client_built_once
    (Client : Type)
    (import_openai : result (option pystr -> option pystr -> result Client))
    (create : Client -> pystr -> pystr -> result (option pystr))
    (self : LLMClient.LLMClient Client) :
  match LLMClient._get_client import_openai self with
  | (self1, Ok c) =>
      LLMClient._get_client import_openai self1 = (self1, Ok c)
      /\ LLMClient.api_key self1 = LLMClient.api_key self
      /\ LLMClient.model self1 = LLMClient.model self
      /\ LLMClient.base_url self1 = LLMClient.base_url self
      /\ forall prompt,
           LLMClient.generate import_openai create self1 prompt
           = (self1, create c (LLMClient.model self) prompt)
  | (self1, Raise e) => self1 = self
  end
  /\ (forall environ_key key model_ url OpenAI c prompt,
        import_openai = Ok OpenAI ->
        OpenAI (LLMClient.py_or key environ_key) url = Ok c ->
        LLMClient.generate import_openai create
          (LLMClient.__init__ Client environ_key key model_ url) prompt
        = ({| LLMClient.api_key := LLMClient.py_or key environ_key;
              LLMClient.model := model_;
              LLMClient.base_url := url;
              LLMClient._client := Some c |},
           create c model_ prompt)).
Proof.
  split.
  - unfold LLMClient._get_client.
    destruct (LLMClient._client self) as [c|] eqn:Ec.
    + unfold LLMClient.generate, LLMClient._get_client. rewrite Ec.
      repeat split.
    + destruct (LLMClient.except_ImportError
                  (OpenAI <- import_openai ;;
                   OpenAI (LLMClient.api_key self) (LLMClient.base_url self)))
        as [c|e]; [|reflexivity].
      unfold LLMClient.generate, LLMClient._get_client. simpl.
      repeat split.
  - intros environ_key key model_ url OpenAI c prompt Hi Hc.
    unfold LLMClient.generate, LLMClient._get_client, LLMClient.__init__.
    simpl. rewrite Hi. simpl. rewrite Hc. reflexivity.
Qed.

Lemma empty_key_uses_environment :
  LLMClient.generate echo_openai echo_create
    (LLMClient.__init__ pystr (Some (lit "sk-env")) (Some []) (lit "gpt-4") None)
    (lit "hello")
  = ({| LLMClient.api_key := Some (lit "sk-env");
        LLMClient.model := lit "gpt-4";
        LLMClient.base_url := None;
        LLMClient._client := Some (lit "sk-env") |},
     Ok (Some (lit "gpt-4: hello"))).
Proof.
  apply (proj2 (llm_client_built_once echo_openai echo_create
                  (LLMClient.__init__ pystr None None [] None))
           (Some (lit "sk-env")) (Some []) (lit "gpt-4") None
           (fun key _ =>
              match key with
              | Some k => Ok k
              | None => Raise (OtherError (lit "OpenAIError"))
              end)
           (lit "sk-env") (lit "hello")).
  - reflexivity.
  - reflexivity.
Defined.

(** ** Runs of the further properties on the reference runtime *)

Lemma alice_google_entities_unique :
  NoDup (dict_keys (entities alice_google))
  /\ NoDup (List.map dedup_pair (dict_values (entities alice_google))).
Proof.
  exact (@reachable_entities_unique reference_runtime alice_google
           alice_google_reachable).
Defined.


Lemma bob_resolves_after_ingestion :
  exists key e,
    _find_entity_key
      (fst (@add_entity reference_runtime (ref_uuid4 2) bob_record alice_google))
      (lit " BOB ") = Some key
    /\ In (key, e)
         (entities (fst (@add_entity reference_runtime (ref_uuid4 2) bob_record
                           alice_google)))
    /\ _sanitize_id (name e) = _sanitize_id (lit " BOB ").
Proof.
  eapply (@ingested_name_resolves reference_runtime).
  - exact alice_google_reachable.
  - vm_compute. reflexivity.
  - vm_compute. reflexivity.
Defined.

Lemma works_for_is_appended :
  exists subj obj,
    dict_get (lit "Person:alice") (entities alice_google) = Some subj
    /\ dict_get (lit "Organization:google") (entities alice_google) = Some obj
    /\ @add_relation reference_runtime works_for_record alice_google
       = ({| entities := entities alice_google;
             relations := relations alice_google
               ++ [{| subject_id := entity_id subj;
                      predicate := lit "worksFor";
                      predicate_uri := lit "https://schema.org/"
                                         ++ lit "worksFor";
                      object_id := entity_id obj |}];
             texts := texts alice_google |}, Ok tt).
Proof.
  apply (@resolved_relation_is_appended reference_runtime works_for_record
           (PStr (lit "worksFor")) (lit "ALICE") (lit "google") (lit "worksFor")
           (lit "Person:alice") (lit "Organization:google") alice_google).
  - exact alice_google_reachable.
  - reflexivity.
  - reflexivity.
  - reflexivity.
  - reflexivity.
  - vm_compute. reflexivity.
  - vm_compute. reflexivity.
Defined.

Lemma prose_response_is_parsed :
  unfence PROSE_RESPONSE = Ok EMPTY_OBJECT
  /\ @_parse_response reference_runtime PROSE_RESPONSE
     = @_parse_response reference_runtime EMPTY_OBJECT.
Proof.
  apply (@fenced_payload_is_parsed reference_runtime).
  - vm_compute. reflexivity.
  - vm_compute. reflexivity.
  - vm_compute. reflexivity.
Defined.

(** ** What [add_text] can raise *)

Section Errors.

Context {RT : PyRuntime}.

Lemma py_getitem_raises (v : pyval) (k : pystr) (e : exn) :
  py_getitem v k = Raise e -> shape_error e.
Proof.
  unfold py_getitem, shape_error.
  destruct v; try (intros E; injection E as <-; tauto).
  destruct (dict_get k d); [discriminate|].
  intros E; injection E as <-; tauto.
Qed.

Lemma py_get_raises (v : pyval) (k : pystr) (default : pyval) (e : exn) :
  py_get v k default = Raise e -> shape_error e.
Proof.
  unfold py_get, shape_error.
  destruct v; try (intros E; injection E as <-; tauto).
  destruct (dict_get k d); discriminate.
Qed.

Lemma entity_of_raises (uuid : pystr) (entity_data : pyval) (e : exn) :
  entity_of uuid entity_data = Raise e -> shape_error e.
Proof.
  unfold entity_of. cbn [bind Monad_result].
  destruct (py_getitem entity_data (lit "name")) as [n|x] eqn:En;
    [|intros E; injection E as <-; exact (py_getitem_raises _ _ En)].
  destruct (py_getitem entity_data (lit "type")) as [t|x] eqn:Et;
    [|intros E; injection E as <-; exact (py_getitem_raises _ _ Et)].
  destruct (py_get entity_data (lit "properties") (PDict [])) as [p|x] eqn:Eg;
    [|intros E; injection E as <-; exact (py_get_raises _ _ _ Eg)].
  unfold new_SchemaOrgEntity.
  destruct (validate_str n); [|intros E; injection E as <-; red; tauto].
  destruct (validate_str t); [|intros E; injection E as <-; red; tauto].
  destruct (validate_dict p); [discriminate|].
  intros E; injection E as <-; red; tauto.
Qed.

Lemma entity_loop_raises (uuid4 : nat -> pystr) (items : list pyval)
    (e : exn) :
  forall (i : nat) (self : KnowledgeGraphConstructor),
    snd (for_each_from i items (fun i d => add_entity (uuid4 i) d) self)
    = Raise e ->
    shape_error e.
Proof.
  induction items as [|d items IH]; intros i self; [discriminate|].
  rewrite for_each_from_cons, add_entity_run.
  destruct (entity_of (uuid4 i) d) as [entity|x] eqn:E.
  - rewrite store_entity_run.
    destruct (dict_mem (entity_key_of entity) (entities self)); apply IH.
  - simpl. intros H; injection H as <-. exact (entity_of_raises _ _ E).
Qed.

Lemma add_relation_raises (rel_data : pyval)
    (self : KnowledgeGraphConstructor) (e : exn) :
  snd (add_relation rel_data self) = Raise e -> shape_error e.
Proof.
  assert (Hty : shape_error TypeError) by (red; tauto).
  assert (Hkey : shape_error KeyError) by (red; tauto).
  assert (Hval : shape_error ValidationError) by (red; tauto).
  unfold add_relation, resolve, entities_getitem. simpl.
  destruct (py_getitem rel_data (lit "subject")) as [vs|x] eqn:Es; simpl;
    [|intros E; injection E as <-; exact (py_getitem_raises _ _ Es)].
  destruct vs; simpl; try (intros E; injection E as <-; assumption).
  destruct (py_getitem rel_data (lit "object")) as [vo|x] eqn:Eo; simpl;
    [|intros E; injection E as <-; exact (py_getitem_raises _ _ Eo)].
  destruct vo; simpl; try (intros E; injection E as <-; assumption).
  destruct (_find_entity_key self s) as [sk|]; simpl; [|discriminate].
  destruct (_find_entity_key self s0) as [ok|]; simpl; [|discriminate].
  destruct (negb (is_empty sk) && negb (is_empty ok)); simpl; [|discriminate].
  destruct (dict_get sk (entities self)); simpl;
    [|intros E; injection E as <-; assumption].
  destruct (py_getitem rel_data (lit "predicate")) as [pred|x] eqn:Ep; simpl;
    [|intros E; injection E as <-; exact (py_getitem_raises _ _ Ep)].
  destruct (dict_get ok (entities self)); simpl;
    [|intros E; injection E as <-; assumption].
  unfold new_SchemaOrgRelation.
  destruct (validate_str pred); simpl; [discriminate|].
  intros E; injection E as <-; assumption.
Qed.

Lemma relation_loop_raises (items : list pyval) (e : exn) :
  forall self : KnowledgeGraphConstructor,
    snd (for_each items add_relation self) = Raise e -> shape_error e.
Proof.
  induction items as [|d items IH]; intros self; [discriminate|].
  cbn [for_each]. simpl.
  pose proof (add_relation_raises d self) as Hd.
  destruct (add_relation d self) as [s1 [[]|x]]; simpl in *.
  - apply IH.
  - intros E; injection E as <-. apply Hd. reflexivity.
Qed.

Lemma py_iter_raises (v : pyval) (e : exn) :
  py_iter v = Raise e -> shape_error e.
Proof.
  destruct v; simpl; try discriminate;
    intros E; injection E as <-; red; tauto.
Qed.

Lemma parse_response_raises (response : pystr) (e : exn) :
  _parse_response response = Raise e ->
  e <> JSONDecodeError
  /\ (shape_error e
      \/ exists payload,
           unfence response = Ok payload
           /\ json_loads (py_strip payload) = Raise e).
Proof.
  unfold _parse_response.
  destruct (unfence_returns response) as (payload & Hu). rewrite Hu. simpl.
  destruct (json_loads (py_strip payload)) as [data|x] eqn:Ej.
  - destruct data; simpl;
      try (intros E; injection E as <-; split;
           [discriminate | left; red; tauto]).
    destruct (dict_get (lit "entities") d);
      destruct (dict_get (lit "relations") d); discriminate.
  - simpl. destruct x; try discriminate;
      intros E; injection E as <-;
      (split; [discriminate | right; exists payload; auto]).
Qed.

(** X18. When the Oracle has answered, [add_text] never raises
    [JSONDecodeError]: what it raises is [AttributeError], [KeyError],
    [TypeError] or [ValidationError], from a decoded value of the wrong
    shape, or an exception other than [JSONDecodeError] that
    [json.loads] itself raised on the unfenced, stripped response. *)
Theorem add_text_raises_only
    (text response : pystr) (uuid4 : nat -> pystr)
    (self : KnowledgeGraphConstructor) (e : exn) :
  snd (add_text text (Ok response) uuid4 self) = Raise e ->
  e <> JSONDecodeError
  /\ (shape_error e
      \/ exists payload,
           unfence response = Ok payload
           /\ json_loads (py_strip payload) = Raise e).
Proof.
  rewrite add_text_unfold. cbv zeta.
  unfold extract_entities_and_relations. simpl.
  assert (Hshape : shape_error e ->
            e <> JSONDecodeError
            /\ (shape_error e
                \/ exists payload,
                     unfence response = Ok payload
                     /\ json_loads (py_strip payload) = Raise e)).
  { intros H. split; [|left; exact H].
    destruct H as [-> | [-> | [-> | ->]]]; discriminate. }
  destruct (_parse_response response) as [[ents rels]|x] eqn:Ep.
  2:{ simpl. intros E; injection E as <-.
      exact (@parse_response_raises response _ Ep). }
  destruct (py_iter ents) as [items|x] eqn:Ei.
  2:{ simpl. intros E; injection E as <-.
      apply Hshape. exact (@py_iter_raises _ _ Ei). }
  match goal with
  | |- context [for_each_from 0 items ?body ?s0] =>
      pose proof (@entity_loop_raises uuid4 items e 0 s0) as Hloop;
      destruct (for_each_from 0 items body s0) as [s1 [[]|x]]
  end.
  2:{ simpl in *. intros E. apply Hshape, Hloop, E. }
  destruct (py_iter rels) as [ritems|x] eqn:Er.
  2:{ simpl. intros E; injection E as <-.
      apply Hshape. exact (@py_iter_raises _ _ Er). }
  intros E. apply Hshape. exact (@relation_loop_raises ritems e s1 E).
Qed.

End Errors.

Lemma array_response_raises_shape_error :
  AttributeError <> JSONDecodeError
  /\ (shape_error AttributeError
      \/ exists payload,
           unfence ARRAY_RESPONSE = Ok payload
           /\ @json_loads reference_runtime (py_strip payload)
              = Raise AttributeError).
Proof.
  apply (@add_text_raises_only reference_runtime ALICE_TEXT ARRAY_RESPONSE
           ref_uuid4 empty_KG AttributeError).
  vm_compute. reflexivity.
Defined.

(** ** The query context *)

Lemma relation_lines (self : KnowledgeGraphConstructor)
    (rs : list SchemaOrgRelation) :
  Forall (refers_to (entities self)) rs ->
  exists lines,
    flat_map (fun r => option_list (relation_context self r)) rs = lines
    /\ Forall2 (fun r line =>
         exists subject obj,
           entity_with_id self (subject_id r) = Some subject
           /\ entity_with_id self (object_id r) = Some obj
           /\ entity_id subject = subject_id r
           /\ entity_id obj = object_id r
           /\ line = context_line subject obj r) rs lines.
Proof.
  induction 1 as [|r rs [Hs Ho] _ IH].
  - exists []. split; [reflexivity | constructor].
  - destruct IH as (lines & <- & Hlines).
    destruct (entity_with_id_stored self Hs) as (subject & Es & Hsid).
    destruct (entity_with_id_stored self Ho) as (obj & Eo & Hoid).
    exists (context_line subject obj r
            :: flat_map (fun r => option_list (relation_context self r)) rs).
    split.
    + cbn [flat_map]. unfold relation_context at 1. rewrite Es, Eo.
      reflexivity.
    + constructor; [|exact Hlines]. exists subject, obj. auto.
Qed.

Section QueryContext.

Context {RT : PyRuntime}.

(** X19. In a reachable graph, the context that [query] hands to the
    Oracle is one line per entity, in insertion order, followed by one
    line per stored relation, in store order, and the line of a relation
    reads the names of the first entities that have its two identifiers
    around its predicate. [query] returns or raises what the Oracle
    does. *)
Theorem query_context_lines
    (self : KnowledgeGraphConstructor) (question : pystr)
    (reply : result pystr) :
  reachable self ->
  snd (query question reply self) = reply
  /\ exists lines,
       context_parts self
       = List.map entity_context (dict_values (entities self)) ++ lines
       /\ Forall2 (fun r line =>
            exists subject obj,
              entity_with_id self (subject_id r) = Some subject
              /\ entity_with_id self (object_id r) = Some obj
              /\ entity_id subject = subject_id r
              /\ entity_id obj = object_id r
              /\ line = context_line subject obj r)
            (relations self) lines.
Proof.
  intros Hreach. destruct (reachable_invariant Hreach) as [_ Hrefs].
  split.
  - unfold query, generate. simpl. destruct reply; reflexivity.
  - destruct (relation_lines self Hrefs) as (lines & E & Hlines).
    exists lines. unfold context_parts. rewrite E. auto.
Qed.

End QueryContext.

Lemma alice_google_context :
  snd (@query reference_runtime (lit "Who works at Google?")
         (Ok (lit "Alice")) alice_google) = Ok (lit "Alice")
  /\ exists lines,
       @context_parts reference_runtime alice_google
       = List.map (@entity_context reference_runtime)
           (dict_values (entities alice_google)) ++ lines
       /\ Forall2 (fun r line =>
            exists subject obj,
              entity_with_id alice_google (subject_id r) = Some subject
              /\ entity_with_id alice_google (object_id r) = Some obj
              /\ entity_id subject = subject_id r
              /\ entity_id obj = object_id r
              /\ line = context_line subject obj r)
            (relations alice_google) lines.
Proof.
  exact (@query_context_lines reference_runtime alice_google
           (lit "Who works at Google?") (Ok (lit "Alice"))
           alice_google_reachable).
Defined.

(** ** Parse failures that the handler does not catch *)

Section Uncaught.

Context {RT : PyRuntime}.

(** An exception of [json.loads] other than [JSONDecodeError] leaves
    [_parse_response] and then [add_text], which has logged the text. *)
Lemma other_parse_failure_escapes
    (text response payload : pystr) (e : exn) (uuid4 : nat -> pystr)
    (self : KnowledgeGraphConstructor) :
  unfence response = Ok payload ->
  json_loads (py_strip payload) = Raise e ->
  e <> JSONDecodeError ->
  _parse_response response = Raise e
  /\ add_text text (Ok response) uuid4 self
     = ({| entities := entities self; relations := relations self;
           texts := texts self ++ [text] |}, Raise e).
Proof.
  intros Hu Hj Hne.
  assert (Hp : _parse_response response = Raise e).
  { unfold _parse_response. rewrite Hu. simpl. rewrite Hj. simpl.
    destruct e; try reflexivity. congruence. }
  split; [exact Hp|].
  unfold add_text, extract_entities_and_relations. simpl. rewrite Hp.
  reflexivity.
Qed.

End Uncaught.

(** C4 does not hold of the code. [_parse_response] catches
    [JSONDecodeError] only. A response of two thousand opening brackets
    cannot be parsed, but what [json.loads] raises on it is
    [RecursionError]: the handler lets it through, [_parse_response]
    does not return the pair of empty lists, and [add_text] raises after
    logging the text. *)
Theorem deep_response_escapes_handler :
  @json_loads cpython_runtime (py_strip DEEP_RESPONSE) = Raise RecursionError
  /\ @_parse_response cpython_runtime DEEP_RESPONSE = Raise RecursionError
  /\ @add_text cpython_runtime ALICE_TEXT (Ok DEEP_RESPONSE) ref_uuid4
       alice_google
     = ({| entities := entities alice_google;
           relations := relations alice_google;
           texts := texts alice_google ++ [ALICE_TEXT] |},
        Raise RecursionError).
Proof.
  assert (Hj : @json_loads cpython_runtime (py_strip DEEP_RESPONSE)
               = Raise RecursionError) by (vm_compute; reflexivity).
  split; [exact Hj|].
  apply (@other_parse_failure_escapes cpython_runtime ALICE_TEXT DEEP_RESPONSE
           DEEP_RESPONSE RecursionError ref_uuid4 alice_google).
  - vm_compute. reflexivity.
  - exact Hj.
  - discriminate.
Qed.
